(** * Movie review platform: the review store and its read paths

    A shallow embedding of the two route sets of the repository:

    - the in-memory server ([app.get('/api/movies')], [app.post('/api/reviews')],
      ...), whose state is the pair of global arrays [movies] and [reviews];
    - the document-store router ([router.post('/')], [router.put('/:reviewId')],
      ...), whose state is the [reviews] collection of the document database.

    Conventions.  A handler is a function from the state and the request to a
    response and the next state.  JSON numbers are modelled by the rationals
    they denote ([Q]) and stored integers by [Z]; the one division of the code,
    the rating average, is computed in IEEE 754 binary64 as JavaScript does.
    Fields of a request body are typed ([option] for a key that may be
    missing) and strings are ASCII.  Values that the handlers would coerce
    from another JSON type (a rating sent as a string, say) are outside the
    embedded domain, and so are failures of the document database itself. *)

From Stdlib Require Import ZArith QArith Qround String Ascii List Lia.
From Stdlib Require Import Floats.SpecFloat Sorting.Sorted.
From stdpp Require Import base option list gmap strings pretty.

Open Scope string_scope.
Open Scope Z_scope.

(** ** JavaScript primitives used by the handlers *)

(** [ToBoolean]: what [if (x)] and [!x] test. *)
Class ToBoolean (A : Type) := truthy : A -> bool.

#[global] Instance Z_ToBoolean : ToBoolean Z := fun z => negb (z =? 0).
#[global] Instance Q_ToBoolean : ToBoolean Q := fun q => negb (Qeq_bool q 0).
#[global] Instance string_ToBoolean : ToBoolean string :=
  fun s => match s with EmptyString => false | String _ _ => true end.
(** A missing key reads as [undefined], which is falsy. *)
#[global] Instance option_ToBoolean {A} `{ToBoolean A} : ToBoolean (option A) :=
  fun o => match o with Some a => truthy a | None => false end.

(** [x < y] and [x > y] on numbers. *)
Definition num_lt (x y : Q) : bool :=
  match Qcompare x y with Lt => true | _ => false end.
Definition num_gt (x y : Q) : bool := num_lt y x.

(** [parseInt(x)] for a number [x]: the decimal rendering of [x] is cut at
    the point, which is truncation towards zero (for 1e-6 <= |x| < 1e21,
    where the rendering has no exponent). *)
Definition parseInt (x : Q) : Z := Z.quot (Qnum x) (Zpos (Qden x)).

(** White space removed by [String.prototype.trim] (ASCII part). *)
Definition is_white_space (a : ascii) : bool :=
  let n := nat_of_ascii a in
  (Nat.eqb n 9 || Nat.eqb n 10 || Nat.eqb n 11 || Nat.eqb n 12
   || Nat.eqb n 13 || Nat.eqb n 32)%bool.

Fixpoint trimStart (s : string) : string :=
  match s with
  | EmptyString => EmptyString
  | String a s' => if is_white_space a then trimStart s' else s
  end.

Fixpoint trimEnd (s : string) : string :=
  match s with
  | EmptyString => EmptyString
  | String a s' =>
      match trimEnd s' with
      | EmptyString => if is_white_space a then EmptyString else String a EmptyString
      | t => String a t
      end
  end.

Definition trim (s : string) : string := trimEnd (trimStart s).

(** [Math.max(...xs)] for a non-empty array. *)
Definition Math_max (xs : list Z) : Z :=
  match xs with
  | [] => 0
  | x :: xs' => fold_left Z.max xs' x
  end.

(** JavaScript numbers that the pagination arithmetic can produce. *)
Inductive number :=
  | Int (z : Z)
  | NaN
  | Infinity (negative : bool).

(** A numeric query parameter such as [?page=2]: missing, a decimal
    integer, or a string without any numeric prefix such as [abc]. *)
Inductive param :=
  | Absent
  | Numeric (z : Z)
  | NonNumeric.

(** [const { page = d } = req.query] followed by the implicit [ToNumber]
    of the arithmetic operators. *)
Definition to_number (p : param) (default : Z) : number :=
  match p with
  | Absent => Int default
  | Numeric z => Int z
  | NonNumeric => NaN
  end.

(** [parseInt(p)] of the same parameter. *)
Definition parseInt_param (p : param) (default : Z) : number :=
  to_number p default.

Definition num_sub (a b : number) : number :=
  match a, b with
  | Int x, Int y => Int (x - y)
  | _, _ => NaN
  end.

Definition num_mul (a b : number) : number :=
  match a, b with
  | Int x, Int y => Int (x * y)
  | _, _ => NaN
  end.

Definition num_add (a b : number) : number :=
  match a, b with
  | Int x, Int y => Int (x + y)
  | _, _ => NaN
  end.

(** [a < n] and [a > n] against an integer such as an array length. *)
Definition num_ltb (a b : number) : bool :=
  match a, b with
  | Int x, Int y => x <? y
  | _, _ => false
  end.

(** [Math.ceil(total / limit)] for a length [total >= 0]. *)
Definition ceil_div (total : Z) (limit : number) : number :=
  match limit with
  | Int 0 => if total =? 0 then NaN else Infinity false
  | Int l => Int (- ((- total) / l))
  | NaN => NaN
  | Infinity _ => Int 0
  end.

(** [ToIntegerOrInfinity] followed by the clamping of
    [Array.prototype.slice] to [0 .. len]. *)
Definition relative_index (len : Z) (n : number) : Z :=
  match n with
  | Int z => if z <? 0 then Z.max (len + z) 0 else Z.min z len
  | NaN => 0
  | Infinity true => 0
  | Infinity false => len
  end.

(** [arr.slice(start, end)]. *)
Definition slice {A} (arr : list A) (start end_ : number) : list A :=
  let len := Z.of_nat (length arr) in
  let k := relative_index len start in
  let final := relative_index len end_ in
  take (Z.to_nat (final - k)) (drop (Z.to_nat k) arr).

(** [Array.prototype.sort(compare)]: a stable sort; [compare a b] is the
    sign of the number returned by the comparator. *)
Fixpoint insert_sorted {A} (compare : A -> A -> comparison) (x : A)
    (l : list A) : list A :=
  match l with
  | [] => [x]
  | y :: l' =>
      match compare x y with
      | Gt => y :: insert_sorted compare x l'
      | _ => x :: l
      end
  end.

Definition sort {A} (compare : A -> A -> comparison) (l : list A) : list A :=
  foldr (insert_sorted compare) [] l.

(** [s.toLowerCase()] and [s.includes(t)] on ASCII strings. *)
Definition lower_ascii (a : ascii) : ascii :=
  let n := nat_of_ascii a in
  if (Nat.leb 65 n && Nat.leb n 90)%bool then ascii_of_nat (n + 32) else a.

Fixpoint toLowerCase (s : string) : string :=
  match s with
  | EmptyString => EmptyString
  | String a s' => String (lower_ascii a) (toLowerCase s')
  end.

Definition includes (s t : string) : bool :=
  match index 0 t s with Some _ => true | None => false end.

(** ** Data model *)

Module Movie.
Record t := mk {
  id : Z;
  title : string;
  year : Z;
  rating : Q;
  genre : string;
  director : string;
  duration : Z;
  poster : string;
  description : string
}.
End Movie.

Module Review.
(** Timestamps are milliseconds since the epoch. *)
Record t := mk {
  id : Z;
  movieId : Z;
  userId : string;
  userName : string;
  rating : Z;
  text : string;
  createdAt : Z;
  updatedAt : Z
}.
End Review.

(** The error responses of the route sets, one constructor per
    [res.status(...).json({ error: ... })] site. *)
Inductive failure :=
  | MissingFields      (* 400, '... are required' *)
  | RatingOutOfRange   (* 400, 'Rating must be between 1 and 5' *)
  | MovieNotFound      (* 404, 'Movie not found' *)
  | AlreadyReviewed    (* 400, 'You have already reviewed this movie' *)
  | ReviewNotFound     (* 404, 'Review not found' *)
  | NotOwnReview       (* 403, 'You can only update/delete your own reviews' *)
  | NoToken            (* 401, 'No token provided' *)
  | InvalidToken       (* 401, 'Invalid token' *)
  | InternalError.     (* 500, from the catch block *)

Definition status (f : failure) : Z :=
  match f with
  | MissingFields | RatingOutOfRange | AlreadyReviewed => 400
  | MovieNotFound | ReviewNotFound => 404
  | NotOwnReview => 403
  | NoToken | InvalidToken => 401
  | InternalError => 500
  end.

(** The error kinds of the specification. *)
Inductive error_kind :=
  | InvalidArgument | Unauthenticated | Forbidden | NotFound
  | DuplicateReview | Unexpected.

Definition kind (f : failure) : error_kind :=
  match f with
  | MissingFields | RatingOutOfRange => InvalidArgument
  | MovieNotFound | ReviewNotFound => NotFound
  | AlreadyReviewed => DuplicateReview
  | NotOwnReview => Forbidden
  | NoToken | InvalidToken => Unauthenticated
  | InternalError => Unexpected
  end.

Inductive response (A : Type) :=
  | Sent (code : Z) (body : A)
  | Failed (f : failure).
Arguments Sent {A} code body.
Arguments Failed {A} f.

Definition fails_with {A} (r : response A) (k : error_kind) : Prop :=
  exists f, r = Failed f /\ kind f = k.

Definition succeeds {A} (r : response A) : Prop :=
  exists code body, r = Sent code body.

(** ** The in-memory server *)

Module InMemory.

Record state := mkState {
  movies : list Movie.t;
  reviews : list Review.t
}.

(** Body of [POST /api/reviews]. *)
Record create_body := mkCreate {
  c_movieId : option Z;
  c_userId : option string;
  c_userName : option string;
  c_rating : option Q;
  c_text : option string
}.

(** Body of [PUT /api/reviews/:id] and [DELETE /api/reviews/:id]. *)
Record update_body := mkUpdate {
  u_rating : option Q;
  u_text : option string;
  u_userId : option string
}.

(** A request as the server receives it: the handlers below never read
    the [Authorization] header. *)
Record request (B : Type) := mkRequest {
  authorization : option string;
  body : B
}.
Arguments mkRequest {B} authorization body.
Arguments authorization {B} r.
Arguments body {B} r.

Definition same_pair (m : Z) (u : string) (r : Review.t) : Prop :=
  Review.movieId r = m /\ Review.userId r = u.

#[global] Instance same_pair_dec m u r : Decision (same_pair m u r).
Proof. unfold same_pair. apply _. Defined.

Definition next_id (rs : list Review.t) : Z :=
  if (0 <? Z.of_nat (length rs)) then Math_max (map Review.id rs) + 1 else 1.

(** [app.post('/api/reviews', ...)]; [now1] and [now2] are the two clock
    readings [new Date()] of the handler. *)
Definition post_review (st : state) (req : request create_body)
    (now1 now2 : Z) : response Review.t * state :=
  let b := body req in
  if (negb (truthy (c_movieId b)) || negb (truthy (c_userId b))
      || negb (truthy (c_userName b)) || negb (truthy (c_rating b))
      || negb (truthy (c_text b)))%bool
  then (Failed MissingFields, st)
  else
    match c_movieId b, c_userId b, c_userName b, c_rating b, c_text b with
    | Some movieId, Some userId, Some userName, Some rating, Some text =>
        if (num_lt rating 1 || num_gt rating 5)%bool
        then (Failed RatingOutOfRange, st)
        else if negb (existsb (fun m => Movie.id m =? movieId) (movies st))
        then (Failed MovieNotFound, st)
        else
          match list_find (same_pair movieId userId) (reviews st) with
          | Some _ => (Failed AlreadyReviewed, st)
          | None =>
              let newReview :=
                Review.mk (next_id (reviews st)) movieId userId userName
                          (parseInt rating) (trim text) now1 now2 in
              (Sent 201 newReview,
               mkState (movies st) (reviews st ++ [newReview]))
          end
    | _, _, _, _, _ => (Failed MissingFields, st)
    end.

Definition has_id (i : Z) (r : Review.t) : Prop := Review.id r = i.

#[global] Instance has_id_dec i r : Decision (has_id i r).
Proof. unfold has_id. apply _. Defined.

(** [reviews[reviewIndex].userId !== userId]: a missing [userId] is
    [undefined], different from every string. *)
Definition differs (stored : string) (given : option string) : bool :=
  match given with
  | Some u => negb (String.eqb stored u)
  | None => true
  end.

(** [app.put('/api/reviews/:id', ...)]; [reviewId] is [parseInt(req.params.id)]. *)
Definition put_review (st : state) (reviewId : Z)
    (req : request update_body) (now : Z) : response Review.t * state :=
  let b := body req in
  match list_find (has_id reviewId) (reviews st) with
  | None => (Failed ReviewNotFound, st)
  | Some (reviewIndex, r) =>
      if differs (Review.userId r) (u_userId b)
      then (Failed NotOwnReview, st)
      else if (truthy (u_rating b)
               && match u_rating b with
                  | Some rating => num_lt rating 1 || num_gt rating 5
                  | None => false
                  end)%bool
      then (Failed RatingOutOfRange, st)
      else
        let rating' :=
          match u_rating b with
          | Some rating => if truthy rating then parseInt rating else Review.rating r
          | None => Review.rating r
          end in
        let text' :=
          match u_text b with
          | Some text => if truthy text then trim text else Review.text r
          | None => Review.text r
          end in
        let r' := Review.mk (Review.id r) (Review.movieId r) (Review.userId r)
                            (Review.userName r) rating' text'
                            (Review.createdAt r) now in
        (Sent 200 r', mkState (movies st) (<[reviewIndex := r']> (reviews st)))
  end.

(** [app.delete('/api/reviews/:id', ...)]. *)
Definition delete_review (st : state) (reviewId : Z)
    (req : request update_body) : response unit * state :=
  match list_find (has_id reviewId) (reviews st) with
  | None => (Failed ReviewNotFound, st)
  | Some (reviewIndex, r) =>
      if differs (Review.userId r) (u_userId (body req))
      then (Failed NotOwnReview, st)
      else (Sent 200 tt, mkState (movies st) (delete reviewIndex (reviews st)))
  end.

(** *** Read handlers *)

Record page_of (A : Type) := mkPage {
  items : list A;
  currentPage : number;
  totalPages : number;
  totalCount : Z;
  hasNextPage : bool;
  hasPrevPage : bool
}.
Arguments mkPage {A}.
Arguments items {A}.
Arguments currentPage {A}.
Arguments totalPages {A}.
Arguments totalCount {A}.
Arguments hasNextPage {A}.
Arguments hasPrevPage {A}.

(** The pagination block shared by the three listing handlers. *)
Definition paginate {A} (arr : list A) (page limit : param) : page_of A :=
  let startIndex := num_mul (num_sub (to_number page 1) (Int 1)) (to_number limit 10) in
  let endIndex := num_add startIndex (parseInt_param limit 10) in
  let len := Z.of_nat (length arr) in
  mkPage (slice arr startIndex endIndex)
         (parseInt_param page 1)
         (ceil_div len (to_number limit 10))
         len
         (num_ltb endIndex (Int len))
         (num_ltb (Int 0) startIndex).

(** A local array variable either is the global [movies] array itself or
    a new array returned by [filter]. *)
Inductive movie_array :=
  | TheGlobal
  | Fresh (arr : list Movie.t).

Definition contents (st : state) (a : movie_array) : list Movie.t :=
  match a with
  | TheGlobal => movies st
  | Fresh arr => arr
  end.

Definition filter_array (st : state) (a : movie_array)
    (keep : Movie.t -> bool) : movie_array :=
  Fresh (List.filter keep (contents st a)).

(** [a.sort(compare)] sorts in place: through an alias of the global
    array it reorders the global array. *)
Definition sort_in_place (st : state) (a : movie_array)
    (compare : Movie.t -> Movie.t -> comparison) : state * movie_array :=
  match a with
  | TheGlobal => (mkState (sort compare (movies st)) (reviews st), TheGlobal)
  | Fresh arr => (st, Fresh (sort compare arr))
  end.

Record movies_query := mkMoviesQuery {
  q_page : param;
  q_limit : param;
  q_search : option string;
  q_genre : option string;
  q_sortBy : option string
}.

Section Listing.

(** [String.prototype.localeCompare] depends on the collation of the
    host; the handlers are parameterised by it. *)
Variable localeCompare : string -> string -> comparison.

Definition by_sortBy (sortBy : option string) (a b : Movie.t) : comparison :=
  match sortBy with
  | Some "year" => Z.compare (Movie.year b) (Movie.year a)
  | Some "rating" => Qcompare (Movie.rating b) (Movie.rating a)
  | _ => localeCompare (Movie.title a) (Movie.title b)
  end.

(** [app.get('/api/movies', ...)]. *)
Definition get_movies (st : state) (q : movies_query)
    : response (page_of Movie.t) * state :=
  let filteredMovies := TheGlobal in
  let filteredMovies :=
    match q_search q with
    | Some search =>
        if truthy search then
          filter_array st filteredMovies (fun movie =>
            includes (toLowerCase (Movie.title movie)) (toLowerCase search)
            || includes (toLowerCase (Movie.director movie)) (toLowerCase search)
            || includes (toLowerCase (Movie.description movie)) (toLowerCase search))%bool
        else filteredMovies
    | None => filteredMovies
    end in
  let filteredMovies :=
    match q_genre q with
    | Some genre =>
        if truthy genre then
          filter_array st filteredMovies (fun movie =>
            String.eqb (toLowerCase (Movie.genre movie)) (toLowerCase genre))
        else filteredMovies
    | None => filteredMovies
    end in
  let '(st', filteredMovies) :=
    sort_in_place st filteredMovies (by_sortBy (q_sortBy q)) in
  (Sent 200 (paginate (contents st' filteredMovies) (q_page q) (q_limit q)), st').

End Listing.

(** [app.get('/api/movies/:id/reviews', ...)]: [reviews.filter] returns a
    new array, which is the one sorted. *)
Definition get_movie_reviews (st : state) (movieId : Z) (page limit : param)
    : response (page_of Review.t) * state :=
  let movieReviews :=
    List.filter (fun r => Review.movieId r =? movieId) (reviews st) in
  let movieReviews :=
    sort (fun a b => Z.compare (Review.createdAt b) (Review.createdAt a))
         movieReviews in
  (Sent 200 (paginate movieReviews page limit), st).

(** [app.get('/api/search', ...)]: [year] is [parseInt(year)] and
    [rating] is [parseFloat(rating)] of the query strings.  The response
    carries the page, [currentPage], [totalPages] and the total; it has no
    [hasNextPage] and [hasPrevPage]. *)
Record search_query := mkSearch {
  s_q : option string;
  s_genre : option string;
  s_year : option Z;
  s_rating : option Q;
  s_page : param;
  s_limit : param
}.

Definition search_movies (st : state) (q : search_query)
    : response (page_of Movie.t) * state :=
  if (negb (truthy (s_q q)) && negb (truthy (s_genre q))
      && negb (bool_decide (is_Some (s_year q)))
      && negb (bool_decide (is_Some (s_rating q))))%bool
  then (Failed MissingFields, st)
  else
    let searchResults := TheGlobal in
    let searchResults :=
      match s_q q with
      | Some term =>
          if truthy term then
            let searchTerm := toLowerCase term in
            filter_array st searchResults (fun movie =>
              includes (toLowerCase (Movie.title movie)) searchTerm
              || includes (toLowerCase (Movie.director movie)) searchTerm
              || includes (toLowerCase (Movie.description movie)) searchTerm
              || includes (toLowerCase (Movie.genre movie)) searchTerm)%bool
          else searchResults
      | None => searchResults
      end in
    let searchResults :=
      match s_genre q with
      | Some genre =>
          if truthy genre then
            filter_array st searchResults (fun movie =>
              String.eqb (toLowerCase (Movie.genre movie)) (toLowerCase genre))
          else searchResults
      | None => searchResults
      end in
    let searchResults :=
      match s_year q with
      | Some year =>
          filter_array st searchResults (fun movie => Movie.year movie =? year)
      | None => searchResults
      end in
    let searchResults :=
      match s_rating q with
      | Some minRating =>
          filter_array st searchResults (fun movie =>
            negb (num_lt (Movie.rating movie) minRating))
      | None => searchResults
      end in
    let '(st', searchResults) :=
      sort_in_place st searchResults
        (fun a b => Qcompare (Movie.rating b) (Movie.rating a)) in
    (Sent 200 (paginate (contents st' searchResults) (s_page q) (s_limit q)), st').

(** *** Rating aggregation *)

(** IEEE 754 binary64, the format of JavaScript numbers. *)
Definition prec : Z := 53.
Definition emax : Z := 1024.

(** The binary64 value of an integer (exact below 2^53). *)
Definition of_int (z : Z) : spec_float := binary_normalize prec emax z 0 false.

(** [x / y] on numbers. *)
Definition divide (x y : spec_float) : spec_float := SFdiv prec emax x y.

(** The integer [n] for which [n / 10 - x] is as close to zero as
    possible, the larger one when there are two, for [x = m * 2^e]. *)
Definition nearest_tenths (m : positive) (e : Z) : Z :=
  if 0 <=? e then 10 * Zpos m * 2 ^ e
  else (20 * Zpos m + 2 ^ (- e)) / 2 ^ (1 - e).

Definition render_tenths (n : Z) : string :=
  pretty (n / 10) +:+ "." +:+ pretty (n mod 10).

(** [x.toFixed(1)] (below 1e21). *)
Definition toFixed1 (x : spec_float) : string :=
  match x with
  | S754_nan => "NaN"
  | S754_infinity false => "Infinity"
  | S754_infinity true => "-Infinity"
  | S754_zero _ => "0.0"
  | S754_finite s m e =>
      (if s then "-" else "") +:+ render_tenths (nearest_tenths m e)
  end.

(** A JSON value that is a number or a string. *)
Inductive json :=
  | JNumber (n : Z)
  | JString (s : string).

Definition average_of (ratings : list Z) : json :=
  if 0 <? Z.of_nat (length ratings)
  then JString (toFixed1 (divide (of_int (fold_left Z.add ratings 0))
                                 (of_int (Z.of_nat (length ratings)))))
  else JNumber 0.

Record movie_with_stats := mkStats {
  movie : Movie.t;
  movieReviews : list Review.t;
  reviewCount : Z;
  averageRating : json
}.

(** [app.get('/api/movies/:id', ...)]; [movieId] is [parseInt(req.params.id)]. *)
Definition get_movie (st : state) (movieId : Z)
    : response movie_with_stats * state :=
  match List.find (fun m => Movie.id m =? movieId) (movies st) with
  | None => (Failed MovieNotFound, st)
  | Some movie =>
      let movieReviews :=
        List.filter (fun r => Review.movieId r =? movieId) (reviews st) in
      (Sent 200 (mkStats movie movieReviews
                         (Z.of_nat (length movieReviews))
                         (average_of (map Review.rating movieReviews))),
       st)
  end.

(** *** Statistics *)

(** The property names every object inherits from [Object.prototype]:
    on the object literal that a reducer fills, [acc[name]] is defined
    for them before any assignment. *)
Definition inherited (name : string) : bool :=
  existsb (String.eqb name)
    [ "constructor"; "hasOwnProperty"; "isPrototypeOf"; "propertyIsEnumerable";
      "toLocaleString"; "toString"; "valueOf"; "__defineGetter__";
      "__defineSetter__"; "__lookupGetter__"; "__lookupSetter__"; "__proto__" ].

(** A property of [genreStats]: a count, or the text that [+ 1] makes of
    an inherited function. *)
Inductive tally :=
  | Count (n : Z)
  | Text.

(** [acc[genre] = (acc[genre] || 0) + 1]; an assignment of a text to
    [__proto__] is ignored. *)
Definition count_genre (acc : gmap string tally) (genre : string)
    : gmap string tally :=
  match acc !! genre with
  | Some (Count n) => <[genre := Count ((if truthy n then n else 0) + 1)]> acc
  | Some Text => <[genre := Text]> acc
  | None =>
      if inherited genre
      then (if String.eqb genre "__proto__" then acc else <[genre := Text]> acc)
      else <[genre := Count 1]> acc
  end.

(** [acc[year] = (acc[year] || 0) + 1]: the key is the decimal numeral of
    the year, which is no inherited name. *)
Definition count_year (acc : gmap Z Z) (year : Z) : gmap Z Z :=
  <[year := (match acc !! year with
             | Some n => if truthy n then n else 0
             | None => 0
             end) + 1]> acc.

Record statistics := mkStatistics {
  totalMovies : Z;
  totalReviews : Z;
  stats_averageRating : json;
  genreStats : gmap string tally;
  yearStats : gmap Z Z
}.

(** [app.get('/api/stats', ...)]. *)
Definition get_stats (st : state) : response statistics * state :=
  let totalMovies := Z.of_nat (length (movies st)) in
  let totalReviews := Z.of_nat (length (reviews st)) in
  let averageRating := average_of (map Review.rating (reviews st)) in
  let genreStats :=
    fold_left (fun acc movie => count_genre acc (Movie.genre movie)) (movies st) ∅ in
  let yearStats :=
    fold_left (fun acc movie => count_year acc (Movie.year movie)) (movies st) ∅ in
  (Sent 200 (mkStatistics totalMovies totalReviews averageRating genreStats yearStats),
   st).

(** *** The sample data the server starts with *)

Definition initial_movies : list Movie.t :=
  [ Movie.mk 1 "The Shawshank Redemption" 1994 (93 # 10) "Drama"
      "Frank Darabont" 142
      "https://image.tmdb.org/t/p/w500/q6y0Go1tsGEsmtFryDOJo3dEmqu.jpg"
      "Two imprisoned men bond over a number of years, finding solace and eventual redemption through acts of common decency.";
    Movie.mk 2 "The Godfather" 1972 (92 # 10) "Crime"
      "Francis Ford Coppola" 175
      "https://image.tmdb.org/t/p/w500/3bhkrj58Vtu7enYsRolD1fZdja1.jpg"
      "The aging patriarch of an organized crime dynasty transfers control of his clandestine empire to his reluctant son.";
    Movie.mk 3 "The Dark Knight" 2008 (90 # 10) "Action"
      "Christopher Nolan" 152
      "https://image.tmdb.org/t/p/w500/qJ2tW6WMUDux911r6m7haRef0WH.jpg"
      "When the menace known as the Joker wreaks havoc and chaos on the people of Gotham, Batman must accept one of the greatest psychological and physical tests of his ability to fight injustice.";
    Movie.mk 4 "Pulp Fiction" 1994 (89 # 10) "Crime"
      "Quentin Tarantino" 154
      "https://image.tmdb.org/t/p/w500/d5iIlFn5s0ImszYzBPb8JPIfbXD.jpg"
      "The lives of two mob hitmen, a boxer, a gangster and his wife, and a pair of diner bandits intertwine in four tales of violence and redemption.";
    Movie.mk 5 "Forrest Gump" 1994 (88 # 10) "Drama"
      "Robert Zemeckis" 142
      "https://image.tmdb.org/t/p/w500/saHP97rTPS5eLwERh_sVru84Gbp.jpg"
      "The presidencies of Kennedy and Johnson, the Vietnam War, the Watergate scandal and other historical events unfold from the perspective of an Alabama man with an IQ of 75." ].

(** [new Date('2024-01-15')] and the like, in milliseconds. *)
Definition initial_reviews : list Review.t :=
  [ Review.mk 1 1 "user123" "John Doe" 5
      "Amazing movie! A true masterpiece that stands the test of time. The story of hope and friendship is incredibly moving."
      1705276800000 1705276800000;
    Review.mk 2 1 "user456" "Jane Smith" 4
      "Great story and excellent acting. Morgan Freeman's narration is perfect. A bit long but worth every minute."
      1705708800000 1705708800000;
    Review.mk 3 2 "user789" "Mike Johnson" 5
      "The best crime drama ever made. Marlon Brando's performance is legendary. Every scene is perfectly crafted."
      1706745600000 1706745600000 ].

Definition initial_state : state := mkState initial_movies initial_reviews.

End InMemory.

(** ** The document-store router *)

Module Firestore.

(** Field values of a stored document. *)
Inductive value :=
  | VUndefined
  | VNumber (q : Q)
  | VString (s : string)
  | VTimestamp (ms : Z).

#[global] Instance Q_eq_dec : EqDecision Q.
Proof. solve_decision. Defined.

#[global] Instance value_eq_dec : EqDecision value.
Proof. solve_decision. Defined.

(** A document is a finite map from field names to values; the
    [reviews] collection maps document identifiers to documents. *)
Abbreviation document := (gmap string value).
Abbreviation collection := (gmap string document).

(** What [admin.auth().getUser(uid)] resolves to. *)
Record user_record := mkUser {
  displayName : option string;
  email : option string;
  photoURL : option string
}.

Definition of_option (o : option string) : value :=
  match o with Some s => VString s | None => VUndefined end.

(** [a || b]. *)
Definition or_else (a b : option string) : value :=
  if truthy a then of_option a else of_option b.

(** [header.split('Bearer ')[1]]. *)
Definition bearer_token (header : string) : option string :=
  match index 0 "Bearer " header with
  | None => None
  | Some i =>
      let rest := substring (i + 7) (String.length header - (i + 7)) header in
      match index 0 "Bearer " rest with
      | None => Some rest
      | Some j => Some (substring 0 j rest)
      end
  end.

Record request (B : Type) := mkRequest {
  authorization : option string;
  body : B
}.
Arguments mkRequest {B} authorization body.
Arguments authorization {B} r.
Arguments body {B} r.

Record create_body := mkCreate {
  c_movieId : option string;
  c_rating : option Q;
  c_text : option string
}.

Record update_body := mkUpdate {
  u_rating : option Q;
  u_text : option string
}.

(** [.where(field, '==', v)]. *)
Definition where_eq (field : string) (v : value) (docs : collection) : collection :=
  filter (fun kd => snd kd !! field = Some v) docs.

(** [data.createdAt?.toDate()]. *)
Definition toDate (o : option value) : value :=
  match o with Some v => v | None => VUndefined end.

(** [{ id: doc.id, ...data, createdAt: ..., updatedAt: ... }]. *)
Definition with_id (id : string) (data : document) : document :=
  <["updatedAt" := toDate (data !! "updatedAt")]>
    (<["createdAt" := toDate (data !! "createdAt")]>
       (data ∪ {["id" := VString id]})).

Section Router.

(** The collaborators: token verification and user lookup of the
    identity service ([None] when the call rejects), and the store's
    evaluation of [.orderBy('createdAt', 'desc').limit(l).offset(o).get()]
    ([None] when the store rejects the query). *)
Variable verifyIdToken : string -> option string.
Variable getUser : string -> option user_record.
Variable ordered_page :
  collection -> number -> number ->
  option (list (string * document)).

(** The [verifyToken] middleware: the verified uid, or the 401 sent. *)
Definition verifyToken {B} (req : request B) : failure + string :=
  match authorization req with
  | None => inl NoToken
  | Some header =>
      match bearer_token header with
      | None => inl NoToken
      | Some token =>
          if truthy token then
            match verifyIdToken token with
            | Some uid => inr uid
            | None => inl InvalidToken
            end
          else inl NoToken
      end
  end.

(** [userId] of the stored review, read for the enrichment. *)
Definition user_of (review : document) : option string :=
  match review !! "userId" with
  | Some (VString uid) => Some uid
  | _ => None
  end.

(** The per-review lookup inside [Promise.all]: on any failure the
    [catch] returns the review as it is. *)
Definition with_user_details (review : document) : document :=
  match user_of review with
  | Some uid =>
      match getUser uid with
      | Some userRecord =>
          <["userPhoto" := of_option (photoURL userRecord)]>
            (<["userName" := or_else (displayName userRecord) (email userRecord)]>
               review)
      | None => review
      end
  | None => review
  end.

(** [router.get('/movie/:movieId', ...)]. *)
Definition get_movie_reviews (db : collection) (movieId : string)
    (limit offset : param) : response (list document) * collection :=
  match ordered_page (where_eq "movieId" (VString movieId) db)
                     (parseInt_param limit 50)
                     (parseInt_param offset 0) with
  | None => (Failed InternalError, db)
  | Some snapshot =>
      let reviews := map (fun doc => with_id (fst doc) (snd doc)) snapshot in
      (Sent 200 (map with_user_details reviews), db)
  end.

(** [router.get('/:reviewId', ...)]:
    [{ id, ...reviewData, ...userDetails, createdAt, updatedAt }]. *)
Definition get_review (db : collection) (reviewId : string)
    : response document * collection :=
  match db !! reviewId with
  | None => (Failed ReviewNotFound, db)
  | Some reviewData =>
      let enriched := with_user_details (reviewData ∪ {["id" := VString reviewId]}) in
      (Sent 200
         (<["updatedAt" := toDate (reviewData !! "updatedAt")]>
            (<["createdAt" := toDate (reviewData !! "createdAt")]> enriched)),
       db)
  end.

(** [router.get('/user/:userId', ...)]: the same listing by author,
    without the enrichment. *)
Definition get_user_reviews (db : collection) (userId : string)
    (limit offset : param) : response (list document) * collection :=
  match ordered_page (where_eq "userId" (VString userId) db)
                     (parseInt_param limit 50)
                     (parseInt_param offset 0) with
  | None => (Failed InternalError, db)
  | Some snapshot =>
      (Sent 200 (map (fun doc => with_id (fst doc) (snd doc)) snapshot), db)
  end.

(** [router.post('/', verifyToken, ...)]; [newId] is the identifier the
    store generates for the added document, [now] the server time of
    the write and [now1], [now2] the clock readings of the response. *)
Definition post_review (db : collection) (req : request create_body)
    (newId : string) (now now1 now2 : Z) : response document * collection :=
  match verifyToken req with
  | inl f => (Failed f, db)
  | inr uid =>
      let b := body req in
      if (negb (truthy (c_movieId b)) || negb (truthy (c_rating b))
          || negb (truthy (c_text b)))%bool
      then (Failed MissingFields, db)
      else
        match c_movieId b, c_rating b, c_text b with
        | Some movieId, Some rating, Some text =>
            if (num_lt rating 1 || num_gt rating 5)%bool
            then (Failed RatingOutOfRange, db)
            else if bool_decide
                      (where_eq "userId" (VString uid)
                         (where_eq "movieId" (VString movieId) db) = ∅)
            then
              let reviewData (t1 t2 : Z) : document :=
                {[ "movieId" := VString movieId;
                   "userId" := VString uid;
                   "rating" := VNumber rating;
                   "text" := VString (trim text);
                   "createdAt" := VTimestamp t1;
                   "updatedAt" := VTimestamp t2 ]} in
              (Sent 201 (<["id" := VString newId]> (reviewData now1 now2)),
               <[newId := reviewData now now]> db)
            else (Failed AlreadyReviewed, db)
        | _, _, _ => (Failed MissingFields, db)
        end
  end.

(** [router.put('/:reviewId', verifyToken, ...)]. *)
Definition put_review (db : collection) (reviewId : string)
    (req : request update_body) (now : Z) : response unit * collection :=
  match verifyToken req with
  | inl f => (Failed f, db)
  | inr uid =>
      let b := body req in
      if (negb (truthy (u_rating b)) || negb (truthy (u_text b)))%bool
      then (Failed MissingFields, db)
      else
        match u_rating b, u_text b with
        | Some rating, Some text =>
            if (num_lt rating 1 || num_gt rating 5)%bool
            then (Failed RatingOutOfRange, db)
            else
              match db !! reviewId with
              | None => (Failed ReviewNotFound, db)
              | Some reviewData =>
                  if bool_decide (reviewData !! "userId" = Some (VString uid))
                  then
                    (Sent 200 tt,
                     <[reviewId :=
                         <["updatedAt" := VTimestamp now]>
                           (<["text" := VString (trim text)]>
                              (<["rating" := VNumber rating]> reviewData))]> db)
                  else (Failed NotOwnReview, db)
              end
        | _, _ => (Failed MissingFields, db)
        end
  end.

(** [router.delete('/:reviewId', verifyToken, ...)]. *)
Definition delete_review (db : collection) (reviewId : string)
    (req : request unit) : response unit * collection :=
  match verifyToken req with
  | inl f => (Failed f, db)
  | inr uid =>
      match db !! reviewId with
      | None => (Failed ReviewNotFound, db)
      | Some reviewData =>
          if bool_decide (reviewData !! "userId" = Some (VString uid))
          then (Sent 200 tt, delete reviewId db)
          else (Failed NotOwnReview, db)
      end
  end.

End Router.

End Firestore.

(** ** The validation middleware *)

Module Validation.


End Validation.

(* ================================================================== *)
(** * Vocabulary of the properties *)

Import InMemory.

(** ** Uniqueness of reviews *)


(** A create request that passes every check made before the duplicate
    check: the five fields are present and truthy, the rating lies in
    [1, 5] and the movie is in the catalogue. *)
Definition passes_validation (st : state) (b : create_body)
    (m : Z) (u : string) : Prop :=
  exists n r t,
    b = mkCreate (Some m) (Some u) (Some n) (Some r) (Some t) /\
    m <> 0 /\ u <> "" /\ n <> "" /\ t <> "" /\
    (1 <= r)%Q /\ (r <= 5)%Q /\
    Exists (fun mv => Movie.id mv = m) (movies st).

(** The same vocabulary for the document store: the stored document [d]
    is a review of movie [m] by user [u]. *)
Definition review_of (m u : string) (d : Firestore.document) : Prop :=
  d !! "movieId" = Some (Firestore.VString m) /\
  d !! "userId" = Some (Firestore.VString u).

Definition has_review (db : Firestore.collection) (m u : string) : Prop :=
  exists k d, db !! k = Some d /\ review_of m u d.

Definition one_per_pair (db : Firestore.collection) : Prop :=
  forall m u k1 k2 d1 d2,
    db !! k1 = Some d1 -> db !! k2 = Some d2 ->
    review_of m u d1 -> review_of m u d2 -> k1 = k2.


(** An update request that reaches the rating check: the review exists
    and the body names its author. *)
Definition reaches_rating_check (st : state) (reviewId : Z)
    (b : update_body) (i : nat) (old : Review.t) : Prop :=
  list_find (has_id reviewId) (reviews st) = Some (i, old) /\
  u_userId b = Some (Review.userId old).

(** ** Histories of write requests *)

(** A write request to the in-memory server. *)
Inductive operation :=
  | Create (req : request create_body) (now1 now2 : Z)
  | Update (reviewId : Z) (req : request update_body) (now : Z)
  | Delete (reviewId : Z) (req : request update_body).

Definition step (st : state) (op : operation) : state :=
  match op with
  | Create req now1 now2 => (post_review st req now1 now2).2
  | Update reviewId req now => (put_review st reviewId req now).2
  | Delete reviewId req => (delete_review st reviewId req).2
  end.

(** The state a history of write requests leads to. *)
Definition run (st : state) (ops : list operation) : state :=
  fold_left step ops st.




(** ** Pagination as the specification words it *)




(** ** Enrichment *)

(** A returned review with the two enrichment fields left out. *)
Definition without_user_details (d : Firestore.document) : Firestore.document :=
  delete "userPhoto" (delete "userName" d).

(** The lookup of the author of a review fails: the review names no
    user, or [getUser] rejects. *)
Definition lookup_fails (getUser : string -> option Firestore.user_record)
    (review : Firestore.document) : Prop :=
  match Firestore.user_of review with
  | Some uid => getUser uid = None
  | None => True
  end.

(** ** Ratings *)


(** ** Filters of the listings *)

(** The test of [GET /api/movies] for a [search] term. *)
Definition matches_search (search : option string) (movie : Movie.t) : bool :=
  match search with
  | Some s =>
      if truthy s then
        (includes (toLowerCase (Movie.title movie)) (toLowerCase s)
         || includes (toLowerCase (Movie.director movie)) (toLowerCase s)
         || includes (toLowerCase (Movie.description movie)) (toLowerCase s))%bool
      else true
  | None => true
  end.

(** The test of both listings for a [genre]. *)
Definition matches_genre (genre : option string) (movie : Movie.t) : bool :=
  match genre with
  | Some g =>
      if truthy g then String.eqb (toLowerCase (Movie.genre movie)) (toLowerCase g)
      else true
  | None => true
  end.





(** ** Pairs and order of reviews *)



(** ** Clock readings *)

(** The clock readings of a request, in the order the handler takes them. *)
Definition readings (op : operation) : list Z :=
  match op with
  | Create _ now1 now2 => [now1; now2]
  | Update _ _ now => [now]
  | Delete _ _ => []
  end.

(** Every review was last updated no earlier than it was created, and
    no later than [t]. *)
Definition timestamps_ordered (t : Z) (rs : list Review.t) : Prop :=
  Forall (fun r => Review.createdAt r <= Review.updatedAt r /\ Review.updatedAt r <= t) rs.

(** The clock never goes back: the readings of a history, starting at
    [t], are in non-decreasing order. *)
Definition clock_monotone (t : Z) (ops : list operation) : Prop :=
  StronglySorted Z.le (t :: concat (map readings ops)).

(** ** Fields of a stored document *)

(** The two documents agree on every field but the listed ones. *)
Definition same_fields_but (fields : list string)
    (d1 d2 : Firestore.document) : Prop :=
  forall f, f ∉ fields -> d1 !! f = d2 !! f.

(** ** Counting *)

(** The number of movies that satisfy [p]. *)
Definition count_where (p : Movie.t -> bool) (ms : list Movie.t) : Z :=
  Z.of_nat (length (List.filter p ms)).

(** The count a property of [genreStats] stands for. *)
Definition counted (o : option tally) : Z :=
  match o with
  | Some (Count n) => n
  | _ => 0
  end.

(* ================================================================== *)
(** * Properties *)

(** ** Proof steps shared by the handler lemmas *)

(** Case analysis along the guards of a handler, closing the branches
    that contradict the hypothesis on its outcome. *)
Ltac case_guards :=
  repeat (match goal with
          | |- context [if ?c then _ else _] => destruct c
          | |- context [match ?o with Some _ => _ | None => _ end] => destruct o
          | |- context [match ?o with inl _ => _ | inr _ => _ end] => destruct o
          end; cbn; try congruence).

(** The response is the failure [f], of the kind asked for. *)
Ltac failed_with f := exists f; split; reflexivity.

(** ** Small facts about the primitives *)

Lemma num_lt_spec (x y : Q) : num_lt x y = true <-> (x < y)%Q.
Proof.
  unfold num_lt. rewrite Qlt_alt. destruct (x ?= y)%Q; split; congruence.
Qed.

Lemma num_lt_false (x y : Q) : num_lt x y = false <-> (y <= x)%Q.
Proof.
  rewrite <- Bool.not_true_iff_false, num_lt_spec. split.
  - apply Qnot_lt_le.
  - apply Qle_not_lt.
Qed.

Lemma truthy_Q_spec (q : Q) : truthy q = true <-> ~ (q == 0)%Q.
Proof.
  unfold truthy, Q_ToBoolean. rewrite Bool.negb_true_iff.
  rewrite <- Bool.not_true_iff_false, Qeq_bool_iff. tauto.
Qed.

Lemma truthy_string_spec (s : string) : truthy s = true <-> s <> "".
Proof. destruct s; cbn; split; congruence. Qed.

Lemma truthy_Z_spec (z : Z) : truthy z = true <-> z <> 0.
Proof.
  unfold truthy, Z_ToBoolean. rewrite Bool.negb_true_iff, Z.eqb_neq. tauto.
Qed.

Lemma differs_false (stored : string) (given : option string) :
  differs stored given = false <-> given = Some stored.
Proof.
  destruct given as [u|]; cbn.
  - rewrite Bool.negb_false_iff, String.eqb_eq. split; congruence.
  - split; congruence.
Qed.

(** ** One review per (movie, author) pair *)

Lemma truthy_rating_in_range (r : Q) : (1 <= r)%Q -> truthy r = true.
Proof.
  intros H. apply truthy_Q_spec. intros E. rewrite E in H.
  revert H. apply Qlt_not_le. reflexivity.
Qed.

Lemma post_review_validated st req now1 now2 m u :
  passes_validation st (body req) m u ->
  post_review st req now1 now2 =
    match list_find (same_pair m u) (reviews st) with
    | Some _ => (Failed AlreadyReviewed, st)
    | None =>
        match body req with
        | mkCreate _ _ (Some n) (Some r) (Some t) =>
            let newReview := Review.mk (next_id (reviews st)) m u n
                                        (parseInt r) (trim t) now1 now2 in
            (Sent 201 newReview, mkState (movies st) (reviews st ++ [newReview]))
        | _ => (Failed MissingFields, st)
        end
    end.
Proof.
  intros (n & r & t & Hb & Hm & Hu & Hn & Ht & Hlo & Hhi & Hmv).
  unfold post_review. rewrite Hb. cbn [c_movieId c_userId c_userName c_rating c_text].
  cbn [truthy option_ToBoolean].
  rewrite (proj2 (truthy_Z_spec m) Hm), (proj2 (truthy_string_spec u) Hu),
    (proj2 (truthy_string_spec n) Hn), (proj2 (truthy_string_spec t) Ht),
    (truthy_rating_in_range r Hlo).
  cbn [negb orb].
  rewrite (proj2 (num_lt_false r 1) Hlo).
  unfold num_gt. rewrite (proj2 (num_lt_false 5 r) Hhi). cbn [orb].
  assert (existsb (fun mv => Movie.id mv =? m) (movies st) = true) as ->.
  { apply existsb_exists. apply Exists_exists in Hmv as (mv & Hin & Hid).
    exists mv. split; [now apply list_elem_of_In | now apply Z.eqb_eq]. }
  cbn [negb]. reflexivity.
Qed.

Lemma post_review_failed_keeps_state st req now1 now2 f :
  (post_review st req now1 now2).1 = Failed f ->
  (post_review st req now1 now2).2 = st.
Proof.
  unfold post_review. case_guards.
Qed.

Lemma list_find_same_pair_None m u (rs : list Review.t) :
  list_find (same_pair m u) rs = None <-> ~ Exists (same_pair m u) rs.
Proof.
  rewrite list_find_None. rewrite <- Forall_Exists_neg. reflexivity.
Qed.



(** ** The same for the document store *)

Lemma where_eq_pair_empty (db : Firestore.collection) (m u : string) :
  Firestore.where_eq "userId" (Firestore.VString u)
    (Firestore.where_eq "movieId" (Firestore.VString m) db) = ∅
  <-> ~ has_review db m u.
Proof.
  unfold Firestore.where_eq, has_review, review_of. rewrite map_empty. split.
  - intros Hnone (k & d & Hk & Hm & Hu).
    specialize (Hnone k). apply map_lookup_filter_None in Hnone as [Hnone | Hnone].
    + apply map_lookup_filter_None in Hnone as [Hnone | Hnone].
      * congruence.
      * apply (Hnone d Hk). exact Hm.
    + apply (Hnone d); [| exact Hu].
      apply map_lookup_filter_Some. split; [exact Hk | exact Hm].
  - intros Hno k. apply map_lookup_filter_None.
    destruct (filter _ db !! k) as [d|] eqn:Hk; [right | left; reflexivity].
    intros x [= <-] Hu. apply map_lookup_filter_Some in Hk as [Hk Hm].
    apply Hno. exists k, d. split; [exact Hk | split; [exact Hm | exact Hu]].
Qed.










(** ** Rating validation *)

Lemma out_of_range_check (r : Q) :
  (r < 1 \/ 5 < r)%Q -> (num_lt r 1 || num_gt r 5)%bool = true.
Proof.
  intros [H | H]; apply Bool.orb_true_iff.
  - left. now apply num_lt_spec.
  - right. unfold num_gt. now apply num_lt_spec.
Qed.

Lemma in_range_check (r : Q) :
  (1 <= r)%Q -> (r <= 5)%Q -> (num_lt r 1 || num_gt r 5)%bool = false.
Proof.
  intros Hlo Hhi. apply Bool.orb_false_iff. split.
  - now apply num_lt_false.
  - unfold num_gt. now apply num_lt_false.
Qed.

(** [parseInt] of a rating that passed the range check is its integer
    part, an integer from 1 to 5. *)
Lemma parseInt_in_range (r : Q) :
  (1 <= r)%Q -> (r <= 5)%Q -> parseInt r = Qfloor r /\ 1 <= parseInt r <= 5.
Proof.
  intros Hlo Hhi. destruct r as [n d]. unfold parseInt, Qfloor, Qle in *.
  cbn in *. assert (0 <= n) by lia.
  rewrite Z.quot_div_nonneg by lia. split; [reflexivity |].
  split.
  - apply Z.div_le_lower_bound; lia.
  - apply Z.div_le_upper_bound; lia.
Qed.

Lemma post_review_out_of_range st req now1 now2 r :
  c_rating (body req) = Some r -> (r < 1 \/ 5 < r)%Q ->
  fails_with (post_review st req now1 now2).1 InvalidArgument /\
  (post_review st req now1 now2).2 = st.
Proof.
  intros Hr Hout. unfold post_review. rewrite Hr.
  destruct (_ || _)%bool.
  { split; [failed_with MissingFields | reflexivity]. }
  destruct (c_movieId (body req)), (c_userId (body req)),
    (c_userName (body req)), (c_text (body req));
    try (split; [failed_with MissingFields | reflexivity]).
  rewrite (out_of_range_check r Hout).
  split; [failed_with RatingOutOfRange | reflexivity].
Qed.

Lemma put_review_checked st reviewId req now i old :
  reaches_rating_check st reviewId (body req) i old ->
  put_review st reviewId req now =
    if (truthy (u_rating (body req))
        && match u_rating (body req) with
           | Some rating => num_lt rating 1 || num_gt rating 5
           | None => false
           end)%bool
    then (Failed RatingOutOfRange, st)
    else
      let rating' :=
        match u_rating (body req) with
        | Some rating => if truthy rating then parseInt rating else Review.rating old
        | None => Review.rating old
        end in
      let text' :=
        match u_text (body req) with
        | Some text => if truthy text then trim text else Review.text old
        | None => Review.text old
        end in
      let r' := Review.mk (Review.id old) (Review.movieId old) (Review.userId old)
                          (Review.userName old) rating' text'
                          (Review.createdAt old) now in
      (Sent 200 r', mkState (movies st) (<[i := r']> (reviews st))).
Proof.
  intros [Hfind Hown]. unfold put_review. rewrite Hfind.
  rewrite (proj2 (differs_false _ _) Hown). reflexivity.
Qed.

(** C4, as the claim states it, fails on the code: no handler tests that
    the rating is an integer.  A create request with the rating 3.5 passes
    the check [rating < 1 || rating > 5] and is stored with
    [parseInt(3.5) = 3]. *)
Lemma create_fractional_rating_counterexample :
  let req := mkRequest None
               (mkCreate (Some 3) (Some "u1") (Some "U One") (Some (7 # 2))
                         (Some "Fine")) in
  let out := post_review initial_state req 1 1 in
  (forall z : Z, ~ (7 # 2 == inject_Z z)%Q) /\
  ~ fails_with out.1 InvalidArgument /\
  exists r, out.1 = Sent 201 r /\ Review.rating r = 3 /\
            reviews out.2 = (initial_reviews ++ [r])%list.
Proof.
  cbn zeta. split; [| split].
  - intros z. unfold Qeq, inject_Z. cbn. lia.
  - intros (f & Hf & _). discriminate Hf.
  - eexists. split; [reflexivity | split; reflexivity].
Qed.

(** C4 (amended): on create, every rating below 1 or above 5 (0 and 6
    among them) fails with InvalidArgument and leaves the state unchanged;
    on update, once the review is found and the ownership check passed,
    every non-zero rating below 1 or above 5 does.  A rating from 1 to 5,
    integer or not, passes: when the other preconditions hold the operation
    succeeds and stores the integer part of the rating, an integer from 1
    to 5. *)
Theorem rating_validation :
  (forall st req now1 now2 r,
     c_rating (body req) = Some r -> (r < 1 \/ 5 < r)%Q ->
     fails_with (post_review st req now1 now2).1 InvalidArgument /\
     (post_review st req now1 now2).2 = st)
  /\
  (forall st req now1 now2 m u r,
     c_rating (body req) = Some r ->
     passes_validation st (body req) m u ->
     ~ Exists (same_pair m u) (reviews st) ->
     exists new,
       post_review st req now1 now2 =
         (Sent 201 new, mkState (movies st) (reviews st ++ [new])) /\
       Review.rating new = Qfloor r /\ 1 <= Review.rating new <= 5)
  /\
  (forall st reviewId req now i old r,
     reaches_rating_check st reviewId (body req) i old ->
     u_rating (body req) = Some r ->
     ~ (r == 0)%Q -> (r < 1 \/ 5 < r)%Q ->
     fails_with (put_review st reviewId req now).1 InvalidArgument /\
     (put_review st reviewId req now).2 = st)
  /\
  (forall st reviewId req now i old r,
     reaches_rating_check st reviewId (body req) i old ->
     u_rating (body req) = Some r ->
     (1 <= r)%Q -> (r <= 5)%Q ->
     exists new,
       put_review st reviewId req now =
         (Sent 200 new, mkState (movies st) (<[i := new]> (reviews st))) /\
       Review.rating new = Qfloor r /\ 1 <= Review.rating new <= 5).
Proof.
  split; [| split; [| split]].
  - apply post_review_out_of_range.
  - intros st req now1 now2 m u r Hr Hvalid Hnew.
    rewrite (post_review_validated st req now1 now2 m u Hvalid).
    apply list_find_same_pair_None in Hnew. rewrite Hnew.
    destruct Hvalid as (n & r0 & t & Hb & _ & _ & _ & _ & Hlo & Hhi & _).
    rewrite Hb in Hr |- *. injection Hr as ->.
    eexists. split; [reflexivity |]. cbn.
    destruct (parseInt_in_range r Hlo Hhi) as [Heq Hrange].
    split; [exact Heq | exact Hrange].
  - intros st reviewId req now i old r Hreach Hr Hnz Hout.
    rewrite (put_review_checked st reviewId req now i old Hreach), Hr.
    cbn [truthy option_ToBoolean].
    rewrite (proj2 (truthy_Q_spec r) Hnz), (out_of_range_check r Hout). cbn.
    split; [failed_with RatingOutOfRange | reflexivity].
  - intros st reviewId req now i old r Hreach Hr Hlo Hhi.
    rewrite (put_review_checked st reviewId req now i old Hreach), Hr.
    cbn [truthy option_ToBoolean].
    rewrite (truthy_rating_in_range r Hlo), (in_range_check r Hlo Hhi). cbn.
    eexists. split; [reflexivity |]. cbn.
    destruct (parseInt_in_range r Hlo Hhi) as [Heq Hrange].
    split; [exact Heq | exact Hrange].
Qed.

(** The ratings 0 and 6 of the claim on create, and 6, 1 and 5 on update
    of the first sample review by its author. *)
Lemma rating_validation_witness :
  let create r := mkRequest None
                    (mkCreate (Some 3) (Some "u1") (Some "U One") (Some r)
                              (Some "Fine")) in
  let update r := mkRequest None (mkUpdate (Some r) None (Some "user123")) in
  fails_with (post_review initial_state (create 0%Q) 1 1).1 InvalidArgument /\
  fails_with (post_review initial_state (create (6 # 1)) 1 1).1 InvalidArgument /\
  fails_with (put_review initial_state 1 (update (6 # 1)) 1).1 InvalidArgument /\
  (exists new, (put_review initial_state 1 (update (1 # 1)) 1).1 = Sent 200 new /\
               Review.rating new = 1) /\
  (exists new, (put_review initial_state 1 (update (5 # 1)) 1).1 = Sent 200 new /\
               Review.rating new = 5).
Proof.
  intros create update.
  assert (Hreach : forall r, reaches_rating_check initial_state 1
                               (body (update r)) 0 (Review.mk 1 1 "user123"
                                 "John Doe" 5
                                 "Amazing movie! A true masterpiece that stands the test of time. The story of hope and friendship is incredibly moving."
                                 1705276800000 1705276800000)).
  { intros r. split; reflexivity. }
  destruct rating_validation as (Hc_out & _ & Hu_out & Hu_in).
  split; [| split; [| split; [| split]]].
  - apply (Hc_out initial_state (create 0%Q) 1 1 0%Q eq_refl). left. reflexivity.
  - apply (Hc_out initial_state (create (6 # 1)) 1 1 (6 # 1)%Q eq_refl).
    right. reflexivity.
  - apply (Hu_out initial_state 1 (update (6 # 1)) 1 _ _ (6 # 1)%Q
             (Hreach _) eq_refl).
    + discriminate.
    + right. reflexivity.
  - destruct (Hu_in initial_state 1 (update (1 # 1)) 1 _ _ (1 # 1)%Q
                (Hreach _) eq_refl) as (new & Heq & Hrat & _);
      [discriminate | discriminate |].
    exists new. rewrite Heq. split; [reflexivity | exact Hrat].
  - destruct (Hu_in initial_state 1 (update (5 # 1)) 1 _ _ (5 # 1)%Q
                (Hreach _) eq_refl) as (new & Heq & Hrat & _);
      [discriminate | discriminate |].
    exists new. rewrite Heq. split; [reflexivity | exact Hrat].
Defined.

(** The update handler accepts the rating 0 as if no rating had been
    sent: the request succeeds and the stored rating stays. *)
Lemma update_rating_zero_ignored :
  let req := mkRequest None (mkUpdate (Some 0%Q) None (Some "user123")) in
  exists new, (put_review initial_state 1 req 7).1 = Sent 200 new /\
              Review.rating new = 5.
Proof. eexists. split; reflexivity. Qed.

(** ** What an update may change *)

Lemma put_review_sent st reviewId req now code new st' :
  put_review st reviewId req now = (Sent code new, st') ->
  exists i old,
    reaches_rating_check st reviewId (body req) i old /\
    st' = mkState (movies st) (<[i := new]> (reviews st)) /\
    new = Review.mk (Review.id old) (Review.movieId old) (Review.userId old)
            (Review.userName old)
            match u_rating (body req) with
            | Some rating => if truthy rating then parseInt rating else Review.rating old
            | None => Review.rating old
            end
            match u_text (body req) with
            | Some text => if truthy text then trim text else Review.text old
            | None => Review.text old
            end
            (Review.createdAt old) now.
Proof.
  unfold put_review.
  destruct (list_find _ _) as [[i old]|] eqn:Hfind; [| discriminate].
  destruct (differs _ _) eqn:Hown; [discriminate |].
  destruct (_ && _)%bool; [discriminate |].
  intros [= <- <- <-]. exists i, old. split; [| split; reflexivity].
  split; [exact Hfind | now apply differs_false].
Qed.

Lemma fs_put_review_sent verifyIdToken db reviewId req now code db' :
  Firestore.put_review verifyIdToken db reviewId req now = (Sent code tt, db') ->
  exists uid old rating text,
    Firestore.verifyToken verifyIdToken req = inr uid /\
    Firestore.u_rating (Firestore.body req) = Some rating /\
    Firestore.u_text (Firestore.body req) = Some text /\
    db !! reviewId = Some old /\
    old !! "userId" = Some (Firestore.VString uid) /\
    db' = <[reviewId :=
              <["updatedAt" := Firestore.VTimestamp now]>
                (<["text" := Firestore.VString (trim text)]>
                   (<["rating" := Firestore.VNumber rating]> old))]> db.
Proof.
  unfold Firestore.put_review.
  destruct (Firestore.verifyToken _ _) as [f | uid] eqn:Htok; [discriminate |].
  destruct (_ || _)%bool; [discriminate |].
  destruct (Firestore.u_rating _) as [rating|]; [| discriminate].
  destruct (Firestore.u_text _) as [text|]; [| discriminate].
  destruct (_ || _)%bool; [discriminate |].
  destruct (db !! reviewId) as [old|] eqn:Hold; [| discriminate].
  case_bool_decide as Hown; [| discriminate].
  intros [= <- <-]. exists uid, old, rating, text. repeat split; auto.
Qed.

(** C7: a successful update changes one review only, and of that review
    only the rating, the text and [updatedAt], which becomes the current
    time; a rating or text missing from the request leaves the stored
    field as it was; identifier, movie, author and creation time stay, and
    so does every other review.  On the document store the same holds
    field by field (there a request without rating or text is rejected, so
    no successful update leaves one out). *)
Theorem update_review_frame :
  (forall st reviewId req now code new st',
     put_review st reviewId req now = (Sent code new, st') ->
     exists i old,
       reviews st !! i = Some old /\ Review.id old = reviewId /\
       movies st' = movies st /\
       reviews st' = <[i := new]> (reviews st) /\
       reviews st' !! i = Some new /\
       (forall j, j <> i -> reviews st' !! j = reviews st !! j) /\
       length (reviews st') = length (reviews st) /\
       Review.id new = Review.id old /\
       Review.movieId new = Review.movieId old /\
       Review.userId new = Review.userId old /\
       Review.userName new = Review.userName old /\
       Review.createdAt new = Review.createdAt old /\
       Review.updatedAt new = now /\
       (u_rating (body req) = None -> Review.rating new = Review.rating old) /\
       (u_text (body req) = None -> Review.text new = Review.text old))
  /\
  (forall verifyIdToken db reviewId req now code db',
     Firestore.put_review verifyIdToken db reviewId req now = (Sent code tt, db') ->
     exists old new,
       db !! reviewId = Some old /\ db' !! reviewId = Some new /\
       (forall k, k <> reviewId -> db' !! k = db !! k) /\
       (forall field, field <> "rating" -> field <> "text" ->
                      field <> "updatedAt" -> new !! field = old !! field) /\
       new !! "updatedAt" = Some (Firestore.VTimestamp now) /\
       is_Some (Firestore.u_rating (Firestore.body req)) /\
       is_Some (Firestore.u_text (Firestore.body req))).
Proof.
  split.
  - intros st reviewId req now code new st' Hput.
    apply put_review_sent in Hput as (i & old & [Hfind Hown] & -> & Hnew).
    apply list_find_Some in Hfind as (Hi & Hid & _).
    exists i, old. cbn [movies reviews].
    assert (Hlt : (i < length (reviews st))%nat) by (eapply lookup_lt_Some; eauto).
    repeat split; try (rewrite Hnew; reflexivity); auto.
    + now apply list_lookup_insert_eq.
    + intros j Hj. now apply list_lookup_insert_ne.
    + apply length_insert.
    + intros Hr. rewrite Hnew, Hr. reflexivity.
    + intros Ht. rewrite Hnew, Ht. reflexivity.
  - intros verifyIdToken db reviewId req now code db' Hput.
    apply fs_put_review_sent in Hput
      as (uid & old & rating & text & _ & Hr & Ht & Hold & _ & ->).
    eexists old, _. split; [exact Hold |]. split; [apply lookup_insert_eq |].
    split; [| split; [| split; [| split]]].
    + intros k Hk. now apply lookup_insert_ne.
    + intros field H1 H2 H3. now rewrite !lookup_insert_ne by congruence.
    + apply lookup_insert_eq.
    + rewrite Hr. eauto.
    + rewrite Ht. eauto.
Qed.

(** An update of the text alone of the second sample review. *)
Lemma update_review_frame_witness :
  let req := mkRequest None (mkUpdate None (Some " Better ") (Some "user456")) in
  exists new st',
    put_review initial_state 2 req 1700000000000 = (Sent 200 new, st') /\
    Review.rating new = 4 /\ Review.text new = "Better" /\
    Review.updatedAt new = 1700000000000 /\
    Review.createdAt new = 1705708800000 /\
    reviews st' !! 0%nat = reviews initial_state !! 0%nat /\
    reviews st' !! 2%nat = reviews initial_state !! 2%nat.
Proof.
  intros req.
  destruct (put_review initial_state 2 req 1700000000000) as [resp st'] eqn:Hput.
  assert (Hresp : exists new, resp = Sent 200 new /\ Review.text new = "Better").
  { vm_compute in Hput. injection Hput as <- <-. eexists. split; reflexivity. }
  destruct Hresp as (new & -> & Htext).
  destruct (proj1 update_review_frame initial_state 2 req 1700000000000 200 new st' Hput)
    as (i & old & Hi & Hid & _ & _ & _ & Hother & _ & _ & _ & _ & _ & Hc & Hu & Hr & _).
  assert (i = 1%nat) as ->.
  { destruct i as [|[|[|i]]]; cbn in Hi; try discriminate;
      injection Hi as <-; cbn in Hid; try discriminate. reflexivity. }
  injection Hi as <-.
  exists new, st'. repeat split; auto.
Defined.

(** ** Ownership *)

(** C2 fails on the in-memory route: the identity compared with the stored
    author is the [userId] field of the request body.  Whatever credentials
    the request carries (none included), naming the author in the body
    makes the update and the delete of another user's review succeed. *)
Theorem update_delete_trust_body_userId :
  forall credentials : option string,
    let update := mkRequest credentials
                    (mkUpdate (Some (1 # 1)) (Some "defaced") (Some "user123")) in
    let delete := mkRequest credentials (mkUpdate None None (Some "user123")) in
    (exists new st',
       put_review initial_state 1 update 7 = (Sent 200 new, st') /\
       Review.userId new = "user123" /\ Review.rating new = 1 /\
       Review.text new = "defaced" /\ reviews st' !! 0%nat = Some new) /\
    (exists st',
       delete_review initial_state 1 delete = (Sent 200 tt, st') /\
       map Review.id (reviews st') = [2; 3]).
Proof.
  intros credentials. cbn zeta. split.
  - eexists _, _. split; [reflexivity |]. repeat split.
  - eexists. split; reflexivity.
Qed.

(** On the document store the identity is the verified uid of the token:
    a caller who is not the stored author changes nothing, whatever the
    body holds. *)
Lemma fs_non_author_changes_nothing verifyIdToken db reviewId uid old :
  db !! reviewId = Some old ->
  old !! "userId" <> Some (Firestore.VString uid) ->
  (forall req now,
     Firestore.verifyToken verifyIdToken req = inr uid ->
     (exists f, Firestore.put_review verifyIdToken db reviewId req now = (Failed f, db)) /\
     (is_Some (Firestore.u_rating (Firestore.body req)) ->
      is_Some (Firestore.u_text (Firestore.body req)) ->
      fails_with (Firestore.put_review verifyIdToken db reviewId req now).1
        InvalidArgument \/
      fails_with (Firestore.put_review verifyIdToken db reviewId req now).1
        Forbidden)) /\
  (forall req,
     Firestore.verifyToken verifyIdToken req = inr uid ->
     Firestore.delete_review verifyIdToken db reviewId req = (Failed NotOwnReview, db)).
Proof.
  intros Hold Hother. split.
  - intros req now Htok. unfold Firestore.put_review. rewrite Htok.
    destruct (_ || _)%bool.
    { split; [eauto |]. intros _ _. left. failed_with MissingFields. }
    destruct (Firestore.u_rating _) as [rating|], (Firestore.u_text _) as [text|];
      try (split; [eauto |]; intros [? ?] [? ?]; discriminate).
    destruct (_ || _)%bool.
    { split; [eauto |]. intros _ _. left. failed_with RatingOutOfRange. }
    rewrite Hold. rewrite bool_decide_eq_false_2 by exact Hother.
    split; [eauto |]. intros _ _. right. failed_with NotOwnReview.
  - intros req Htok. unfold Firestore.delete_review. rewrite Htok, Hold.
    rewrite bool_decide_eq_false_2 by exact Hother. reflexivity.
Qed.

(** ** The stored body *)

(** C8 fails on the code: the handlers test the text before trimming it.
    A text of white space only is truthy, passes the check and is stored
    as the empty string, on create and on update. *)
Theorem whitespace_text_stored_empty :
  let create := mkRequest None
                  (mkCreate (Some 3) (Some "u1") (Some "U One") (Some (5 # 1))
                            (Some "   ")) in
  let update := mkRequest None (mkUpdate None (Some " ") (Some "user123")) in
  (exists new st',
     post_review initial_state create 1 1 = (Sent 201 new, st') /\
     Review.text new = "" /\ reviews st' !! 3%nat = Some new) /\
  (exists new st',
     put_review initial_state 1 update 1 = (Sent 200 new, st') /\
     Review.text new = "" /\ reviews st' !! 0%nat = Some new).
Proof.
  cbn zeta. split; eexists _, _; (split; [reflexivity | split; reflexivity]).
Qed.

(** What holds of the stored body: it is the trimmed form of the text
    sent, as in the scenario of the specification. *)
Lemma created_text_is_trimmed st req now1 now2 code new st' :
  post_review st req now1 now2 = (Sent code new, st') ->
  exists text, c_text (body req) = Some text /\ text <> "" /\
               Review.text new = trim text.
Proof.
  unfold post_review.
  destruct (_ || _)%bool eqn:Hguard; [discriminate |].
  destruct (c_movieId (body req)), (c_userId (body req)),
    (c_userName (body req)), (c_rating (body req)),
    (c_text (body req)) as [text|]; try discriminate.
  destruct (num_lt _ _ || num_gt _ _)%bool; [discriminate |].
  destruct (negb (existsb _ _)); [discriminate |].
  destruct (list_find _ _); [discriminate |].
  intros [= <- <- <-]. exists text. split; [reflexivity |]. split; [| reflexivity].
  apply truthy_string_spec.
  apply Bool.orb_false_iff in Hguard as [_ Hguard].
  now apply Bool.negb_false_iff.
Qed.

Example create_trims_text :
  let req := mkRequest None
               (mkCreate (Some 1) (Some "u1") (Some "U One") (Some (5 # 1))
                         (Some " Great ")) in
  exists new st',
    post_review initial_state req 9 9 = (Sent 201 new, st') /\
    Review.text new = "Great" /\ Review.createdAt new = Review.updatedAt new.
Proof. eexists _, _. split; [reflexivity | split; reflexivity]. Qed.

(** ** Reads and the stored collections *)

(** C6 fails on the code: [GET /api/movies] without [search] and [genre]
    sorts the variable [filteredMovies], which still is the global [movies]
    array, in place.  Listing the sample catalogue by year leaves the
    stored array in the order 3, 1, 4, 5, 2, whatever the collation. *)
Theorem get_movies_reorders_catalogue :
  forall localeCompare : string -> string -> comparison,
    let q := mkMoviesQuery Absent Absent None None (Some "year") in
    let out := get_movies localeCompare initial_state q in
    succeeds out.1 /\
    map Movie.id (movies initial_state) = [1; 2; 3; 4; 5] /\
    map Movie.id (movies out.2) = [3; 1; 4; 5; 2] /\
    movies out.2 <> movies initial_state.
Proof.
  intros localeCompare. cbn zeta.
  split; [eexists _, _; reflexivity |].
  split; [reflexivity |]. split; [reflexivity |].
  intros Heq. apply (f_equal (map Movie.id)) in Heq. discriminate Heq.
Qed.

(** The reordering is visible to later requests, because the sort is
    stable: with the titles compared as plain strings, the listing by year
    differs after a listing by title. *)
Example get_movies_not_repeatable :
  let by_title := mkMoviesQuery Absent Absent None None None in
  let by_year := mkMoviesQuery Absent Absent None None (Some "year") in
  let listed st :=
    match (get_movies String.compare st by_year).1 with
    | Sent _ page => map Movie.id (items page)
    | Failed _ => []
    end in
  listed initial_state = [3; 1; 4; 5; 2] /\
  listed (get_movies String.compare initial_state by_title).2 = [3; 5; 4; 1; 2].
Proof. split; reflexivity. Qed.

(** The other read handlers return the state they were given, and so does
    the movie listing once [filter] has produced a new array. *)
Lemma get_movies_filtered_keeps_state localeCompare st q :
  truthy (q_search q) = true \/ truthy (q_genre q) = true ->
  (get_movies localeCompare st q).2 = st.
Proof.
  unfold get_movies. intros [H | H].
  - destruct (q_search q) as [search|]; [| discriminate H].
    cbn in H. rewrite H.
    destruct (q_genre q) as [genre|]; [destruct (truthy genre) |]; reflexivity.
  - destruct (q_genre q) as [genre|]; [| discriminate H].
    cbn in H. rewrite H.
    destruct (q_search q) as [search|]; [destruct (truthy search) |]; reflexivity.
Qed.

Lemma search_movies_keeps_state st q : (search_movies st q).2 = st.
Proof.
  unfold search_movies.
  destruct (_ && _)%bool eqn:Hguard; [reflexivity |].
  destruct (s_rating q) as [minRating|]; [reflexivity |].
  destruct (s_year q) as [year|]; [reflexivity |].
  destruct (s_genre q) as [[|a genre]|], (s_q q) as [[|b term]|];
    try reflexivity; discriminate Hguard.
Qed.

Lemma other_reads_keep_state :
  (forall st movieId, (get_movie st movieId).2 = st) /\
  (forall st movieId page limit, (get_movie_reviews st movieId page limit).2 = st) /\
  (forall st q, (search_movies st q).2 = st) /\
  (forall getUser ordered_page db movieId limit offset,
     (Firestore.get_movie_reviews getUser ordered_page db movieId limit offset).2 = db) /\
  (forall ordered_page db userId limit offset,
     (Firestore.get_user_reviews ordered_page db userId limit offset).2 = db) /\
  (forall getUser db reviewId, (Firestore.get_review getUser db reviewId).2 = db).
Proof.
  repeat split.
  - intros st movieId. unfold get_movie. destruct (List.find _ _); reflexivity.
  - apply search_movies_keeps_state.
  - intros getUser ordered_page db movieId limit offset.
    unfold Firestore.get_movie_reviews. destruct (ordered_page _ _ _); reflexivity.
  - intros ordered_page db userId limit offset.
    unfold Firestore.get_user_reviews. destruct (ordered_page _ _ _); reflexivity.
  - intros getUser db reviewId. unfold Firestore.get_review.
    destruct (db !! reviewId); reflexivity.
Qed.

(** ** Identifiers *)





Lemma delete_review_state st reviewId req :
  (delete_review st reviewId req).2 = st \/
  exists i, (delete_review st reviewId req).2 =
              mkState (movies st) (delete i (reviews st)).
Proof.
  unfold delete_review. destruct (list_find _ _) as [[i old]|]; [| now left].
  destruct (differs _ _); [now left | right; eexists; reflexivity].
Qed.






(** ** Pagination *)


Lemma slice_nonneg {A} (arr : list A) (s e : Z) :
  0 <= s -> s <= e ->
  slice arr (Int s) (Int e) = take (Z.to_nat (e - s)) (drop (Z.to_nat s) arr).
Proof.
  intros Hs He. unfold slice, relative_index.
  replace (s <? 0) with false by (symmetry; apply Z.ltb_ge; lia).
  replace (e <? 0) with false by (symmetry; apply Z.ltb_ge; lia).
  set (len := Z.of_nat (length arr)).
  destruct (Z_lt_le_dec s len) as [Hlt | Hge].
  - rewrite (Z.min_l s len) by lia.
    destruct (Z_le_gt_dec e len) as [Hle | Hgt].
    + rewrite (Z.min_l e len) by lia. reflexivity.
    + rewrite (Z.min_r e len) by lia.
      rewrite !take_ge; [reflexivity | |]; rewrite length_drop; subst len; lia.
  - rewrite (Z.min_r s len), (Z.min_r e len) by lia.
    rewrite !drop_ge by (subst len; lia). now rewrite !take_nil.
Qed.




(** ** Enrichment with user details *)

Lemma with_user_details_same_review getUser (review : Firestore.document) :
  without_user_details (Firestore.with_user_details getUser review) =
  without_user_details review.
Proof.
  unfold Firestore.with_user_details.
  destruct (Firestore.user_of review) as [uid|]; [| reflexivity].
  destruct (getUser uid) as [userRecord|]; [| reflexivity].
  unfold without_user_details. apply map_eq. intros k.
  rewrite !lookup_delete, !lookup_insert. repeat case_decide; congruence.
Qed.

Lemma with_user_details_failed getUser (review : Firestore.document) :
  lookup_fails getUser review ->
  Firestore.with_user_details getUser review = review.
Proof.
  unfold lookup_fails, Firestore.with_user_details.
  destruct (Firestore.user_of review) as [uid|]; [| reflexivity].
  intros ->. reflexivity.
Qed.

Lemma without_user_details_timestamps (d : Firestore.document) (a b : Firestore.value) :
  without_user_details (<["updatedAt" := a]> (<["createdAt" := b]> d)) =
  <["updatedAt" := a]> (<["createdAt" := b]> (without_user_details d)).
Proof.
  unfold without_user_details. apply map_eq. intros k.
  rewrite !lookup_delete, !lookup_insert, !lookup_delete.
  repeat case_decide; congruence.
Qed.

(** C10: when the user lookup fails for some reviews, the listing of a
    movie's reviews and the fetch of one review still answer 200 with the
    same reviews, in the same order: whatever lookups fail, the response
    equals the one obtained when every lookup succeeds once [userName] and
    [userPhoto] are left out; a review whose lookup failed is returned as
    stored, without the enrichment. *)
Theorem failed_lookup_keeps_reviews :
  (forall getUser getUser' ordered_page db movieId limit offset,
     match (Firestore.get_movie_reviews getUser ordered_page db movieId limit offset).1,
           (Firestore.get_movie_reviews getUser' ordered_page db movieId limit offset).1
     with
     | Sent code sent, Sent code' sent' =>
         code = code' /\ length sent = length sent' /\
         map without_user_details sent = map without_user_details sent'
     | Failed f, Failed f' => f = f'
     | _, _ => False
     end)
  /\
  (forall getUser ordered_page db movieId limit offset snapshot,
     ordered_page (Firestore.where_eq "movieId" (Firestore.VString movieId) db)
                  (parseInt_param limit 50) (parseInt_param offset 0)
       = Some snapshot ->
     exists sent,
       Firestore.get_movie_reviews getUser ordered_page db movieId limit offset
         = (Sent 200 sent, db) /\
       length sent = length snapshot /\
       forall i id data, snapshot !! i = Some (id, data) ->
         exists d, sent !! i = Some d /\
           without_user_details d = without_user_details (Firestore.with_id id data) /\
           (lookup_fails getUser (Firestore.with_id id data) ->
            d = Firestore.with_id id data))
  /\
  (forall getUser db reviewId data,
     db !! reviewId = Some data ->
     exists d,
       Firestore.get_review getUser db reviewId = (Sent 200 d, db) /\
       without_user_details d = without_user_details (Firestore.with_id reviewId data) /\
       (lookup_fails getUser (data ∪ {["id" := Firestore.VString reviewId]}) ->
        d = Firestore.with_id reviewId data)).
Proof.
  split; [| split].
  - intros getUser getUser' ordered_page db movieId limit offset.
    unfold Firestore.get_movie_reviews.
    destruct (ordered_page _ _ _) as [snapshot|]; cbn; [| reflexivity].
    split; [reflexivity |]. split; [now rewrite !length_map |].
    rewrite !map_map. apply map_ext. intros doc.
    now rewrite !with_user_details_same_review.
  - intros getUser ordered_page db movieId limit offset snapshot Hpage.
    unfold Firestore.get_movie_reviews. rewrite Hpage.
    eexists. split; [reflexivity |]. split; [now rewrite !length_map |].
    intros i id data Hi.
    exists (Firestore.with_user_details getUser (Firestore.with_id id data)).
    split; [| split].
    + change (map ?f ?l) with (f <$> l). rewrite !list_lookup_fmap, Hi. reflexivity.
    + apply with_user_details_same_review.
    + apply with_user_details_failed.
  - intros getUser db reviewId data Hdata.
    unfold Firestore.get_review. rewrite Hdata.
    eexists. split; [reflexivity |]. split.
    + unfold Firestore.with_id. rewrite !without_user_details_timestamps.
      now rewrite with_user_details_same_review.
    + intros Hfail. rewrite (with_user_details_failed _ _ Hfail). reflexivity.
Qed.

(** Two stored reviews of one movie, the lookup of the second author
    failing: the second review is returned as stored. *)
Lemma failed_lookup_keeps_reviews_witness :
  let alice : Firestore.document :=
    {[ "movieId" := Firestore.VString "550"; "userId" := Firestore.VString "alice";
       "rating" := Firestore.VNumber (5 # 1); "text" := Firestore.VString "Great" ]} in
  let bob : Firestore.document :=
    {[ "movieId" := Firestore.VString "550"; "userId" := Firestore.VString "bob";
       "rating" := Firestore.VNumber (2 # 1); "text" := Firestore.VString "Dull" ]} in
  let db : Firestore.collection := {[ "r1" := alice; "r2" := bob ]} in
  let getUser uid :=
    if String.eqb uid "alice"
    then Some (Firestore.mkUser (Some "Alice") (Some "alice@example.org") None)
    else None in
  let ordered_page (docs : Firestore.collection) (limit offset : number) :=
    Some [("r2", bob); ("r1", alice)] in
  exists sent d,
    Firestore.get_movie_reviews getUser ordered_page db "550" Absent Absent
      = (Sent 200 sent, db) /\
    length sent = 2%nat /\ sent !! 0%nat = Some d /\
    d = Firestore.with_id "r2" bob.
Proof.
  intros alice bob db getUser ordered_page.
  destruct (proj1 (proj2 failed_lookup_keeps_reviews) getUser ordered_page db "550"
              Absent Absent [("r2", bob); ("r1", alice)] eq_refl)
    as (sent & Hsent & Hlen & Heach).
  destruct (Heach 0%nat "r2" bob eq_refl) as (d & Hd & _ & Hplain).
  exists sent, d. split; [exact Hsent |]. split; [exact Hlen |].
  split; [exact Hd |]. apply Hplain. reflexivity.
Defined.

(** ** Rating aggregation in binary64 *)
















(** ** Movie statistics *)




(** The example of the specification: ratings 5, 4, 5 give "4.7" and the
    count 3; no review gives the number 0 and the count 0. *)
Example stats_of_5_4_5 :
  let st := (post_review initial_state
               (mkRequest None
                  (mkCreate (Some 1) (Some "u1") (Some "U One") (Some (5 # 1))
                            (Some "Superb"))) 1 1).2 in
  (exists stats, get_movie st 1 = (Sent 200 stats, st) /\
     map Review.rating (movieReviews stats) = [5; 4; 5] /\
     reviewCount stats = 3 /\ averageRating stats = JString "4.7") /\
  (exists stats, get_movie st 3 = (Sent 200 stats, st) /\
     reviewCount stats = 0 /\ averageRating stats = JNumber 0).
Proof.
  cbn zeta. split; eexists; (split; [reflexivity |]); repeat split; reflexivity.
Qed.

(** At a mean that lies half way between two tenths the reported value
    follows the binary64 quotient: 4.35 is reported as "4.3" and 4.15 as
    "4.2", both nearest tenths. *)
Example average_of_ties :
  average_of (repeat 4 13 ++ repeat 5 7) = JString "4.3" /\
  average_of (repeat 4 17 ++ repeat 5 3) = JString "4.2" /\
  average_of [1; 1; 1; 2] = JString "1.3".
Proof. repeat split; vm_compute; reflexivity. Qed.






(* ================================================================== *)
(** * Further properties of the handlers *)

(** ** Pages of a listing *)

Lemma paginate_items {A} (arr : list A) (p l : Z) :
  1 <= p -> 1 <= l ->
  items (paginate arr (Numeric p) (Numeric l)) =
  take (Z.to_nat l) (drop (Z.to_nat ((p - 1) * l)) arr).
Proof.
  intros Hp Hl. unfold paginate, parseInt_param. cbn.
  rewrite slice_nonneg by nia. f_equal. f_equal. lia.
Qed.

Lemma paginate_total_pages {A} (arr : list A) (page : param) (l : Z) :
  1 <= l ->
  exists pages,
    totalPages (paginate arr page (Numeric l)) = Int pages /\
    (pages - 1) * l < Z.of_nat (length arr) <= pages * l.
Proof.
  intros Hl. unfold paginate. cbn [totalPages to_number]. unfold ceil_div.
  destruct l as [| l' | l'] eqn:El; [lia | | lia]. rewrite <- El in *.
  eexists. split; [reflexivity |].
  pose proof (Z.div_mod (- Z.of_nat (length arr)) l ltac:(lia)) as Hdm.
  pose proof (Z.mod_pos_bound (- Z.of_nat (length arr)) l ltac:(lia)) as Hmod.
  nia.
Qed.




(** X2: for a page and a limit of at least 1, [hasNextPage] says that the
    page number is below [totalPages] and [hasPrevPage] that it is above
    1; a page beyond the last is empty and has no next page. *)
Theorem pages_navigation {A} (arr : list A) (p l pages : Z) :
  1 <= p -> 1 <= l ->
  totalPages (paginate arr (Numeric p) (Numeric l)) = Int pages ->
  let r := paginate arr (Numeric p) (Numeric l) in
  (hasNextPage r = true <-> p < pages) /\
  (hasPrevPage r = true <-> 1 < p) /\
  (pages < p -> items r = [] /\ hasNextPage r = false) /\
  (p <= pages -> items r <> []).
Proof.
  intros Hp Hl Hpages r.
  destruct (paginate_total_pages arr (Numeric p) l Hl) as (pages' & Htp & Hlo & Hhi).
  rewrite Htp in Hpages. injection Hpages as ->.
  assert (Hnext : hasNextPage r = true <-> p < pages).
  { subst r. unfold paginate, parseInt_param. cbn. rewrite Z.ltb_lt. nia. }
  split; [exact Hnext |]. split; [| split].
  - subst r. unfold paginate, parseInt_param. cbn. rewrite Z.ltb_lt. nia.
  - intros Hbeyond. split.
    + subst r. rewrite paginate_items by lia. rewrite drop_ge by nia.
      apply take_nil.
    + apply Bool.not_true_iff_false. rewrite Hnext. lia.
  - intros Hin Hempty. subst r. rewrite paginate_items in Hempty by lia.
    apply (f_equal length) in Hempty.
    rewrite length_take, length_drop in Hempty. cbn in Hempty. nia.
Qed.

Lemma pages_navigation_witness :
  let r := paginate [10; 20; 30; 40; 50] (Numeric 4) (Numeric 2) in
  hasPrevPage r = true /\ items r = [] /\ hasNextPage r = false.
Proof.
  intros r.
  destruct (pages_navigation [10; 20; 30; 40; 50] 4 2 3
              ltac:(lia) ltac:(lia) eq_refl) as (_ & Hprev & Hbeyond & _).
  split; [apply Hprev; lia | apply Hbeyond; lia].
Defined.

(** ** Sorting and filtering of the listings *)

Lemma insert_sorted_Permutation {A} (cmp : A -> A -> comparison) (x : A) (l : list A) :
  insert_sorted cmp x l ≡ₚ x :: l.
Proof.
  induction l as [| y l IH]; cbn; [reflexivity |].
  destruct (cmp x y); try reflexivity.
  rewrite IH. apply Permutation_swap.
Qed.

Lemma sort_Permutation {A} (cmp : A -> A -> comparison) (l : list A) :
  sort cmp l ≡ₚ l.
Proof.
  unfold sort. induction l as [| x l IH]; cbn; [reflexivity |].
  rewrite insert_sorted_Permutation. now rewrite IH.
Qed.

Section SortOrder.
Context {A : Type} (cmp : A -> A -> comparison) (R : A -> A -> Prop).
Hypothesis R_before : forall x y, cmp x y <> Gt -> R x y.
Hypothesis R_after : forall x y, cmp x y = Gt -> R y x.
Hypothesis R_trans : forall x y z, R x y -> R y z -> R x z.


End SortOrder.





Lemma filter_filter {A} (f g : A -> bool) (l : list A) :
  List.filter g (List.filter f l) = List.filter (fun x => f x && g x)%bool l.
Proof.
  induction l as [| x l IH]; cbn; [reflexivity |].
  destruct (f x); cbn; [destruct (g x); cbn; now rewrite IH | exact IH].
Qed.

(** The array that [GET /api/movies] sorts and paginates. *)
Lemma get_movies_listed localeCompare st q :
  exists listed,
    get_movies localeCompare st q =
      (Sent 200 (paginate listed (q_page q) (q_limit q)),
       if (truthy (q_search q) || truthy (q_genre q))%bool then st
       else mkState listed (reviews st)) /\
    listed = sort (by_sortBy localeCompare (q_sortBy q))
               (List.filter (fun m => matches_search (q_search q) m
                                      && matches_genre (q_genre q) m)%bool
                            (movies st)).
Proof.
  assert (Hall : forall l : list Movie.t, List.filter (fun _ => true) l = l).
  { induction l as [| x l IH]; cbn; [reflexivity | now rewrite IH]. }
  unfold get_movies, matches_search, matches_genre.
  destruct (q_search q) as [search|], (q_genre q) as [genre|]; cbn [truthy option_ToBoolean].
  - destruct (truthy search), (truthy genre); cbn.
    + eexists. split; [reflexivity |]. now rewrite filter_filter.
    + eexists. split; [reflexivity |]. f_equal. apply filter_ext. intros m.
      now rewrite Bool.andb_true_r.
    + eexists. split; [reflexivity |]. reflexivity.
    + eexists. split; [reflexivity |]. now rewrite Hall.
  - destruct (truthy search); cbn.
    + eexists. split; [reflexivity |]. f_equal. apply filter_ext. intros m.
      now rewrite Bool.andb_true_r.
    + eexists. split; [reflexivity |]. now rewrite Hall.
  - destruct (truthy genre); cbn.
    + eexists. split; [reflexivity |]. reflexivity.
    + eexists. split; [reflexivity |]. now rewrite Hall.
  - eexists. split; [reflexivity |]. now rewrite Hall.
Qed.



(** X4: a movie listing may reorder the stored catalogue, but it never
    adds, drops or changes a movie, and it never touches the reviews. *)
Theorem listing_keeps_catalogue_content localeCompare st q :
  movies (get_movies localeCompare st q).2 ≡ₚ movies st /\
  reviews (get_movies localeCompare st q).2 = reviews st.
Proof.
  destruct (get_movies_listed localeCompare st q) as (listed & -> & Hlisted).
  cbn [snd]. destruct (truthy (q_search q) || truthy (q_genre q))%bool eqn:Hf;
    [split; reflexivity |].
  cbn. split; [| reflexivity]. rewrite Hlisted, sort_Permutation.
  apply Bool.orb_false_iff in Hf as [Hs Hg].
  assert (Hall : forall m, (matches_search (q_search q) m
                            && matches_genre (q_genre q) m)%bool = true).
  { intros m. unfold matches_search, matches_genre.
    destruct (q_search q) as [s|], (q_genre q) as [g|]; cbn in Hs, Hg;
      rewrite ?Hs, ?Hg; reflexivity. }
  rewrite (filter_ext _ (fun _ => true) Hall).
  clear. induction (movies st) as [| x l IH]; cbn; [reflexivity | now rewrite IH].
Qed.

(** ** The search *)








(** ** Failed writes *)

Lemma put_review_failed_keeps_state st reviewId req now f st' :
  put_review st reviewId req now = (Failed f, st') -> st' = st.
Proof.
  unfold put_review.
  destruct (list_find _ _) as [[i old]|]; [| now intros [= _ <-]].
  destruct (differs _ _); [now intros [= _ <-] |].
  destruct (_ && _)%bool; [now intros [= _ <-] | discriminate].
Qed.






(** ** Requests for a review that is missing or is another user's *)






(** ** Deleting *)





(** ** Creating *)

Lemma post_review_sent_inv st req now1 now2 code new st' :
  post_review st req now1 now2 = (Sent code new, st') ->
  exists m u n r t,
    body req = mkCreate (Some m) (Some u) (Some n) (Some r) (Some t) /\
    (negb (truthy (c_movieId (body req))) || negb (truthy (c_userId (body req)))
     || negb (truthy (c_userName (body req))) || negb (truthy (c_rating (body req)))
     || negb (truthy (c_text (body req))))%bool = false /\
    (num_lt r 1 || num_gt r 5)%bool = false /\
    existsb (fun mv => Movie.id mv =? m) (movies st) = true /\
    list_find (same_pair m u) (reviews st) = None /\
    code = 201 /\
    new = Review.mk (next_id (reviews st)) m u n (parseInt r) (trim t) now1 now2 /\
    st' = mkState (movies st) (reviews st ++ [new]).
Proof.
  unfold post_review.
  destruct (_ || _)%bool eqn:Hguard; [discriminate |].
  destruct (body req) as [[m|] [u|] [n|] [r|] [t|]]; try discriminate.
  cbn [c_movieId c_userId c_userName c_rating c_text] in *.
  destruct (num_lt _ _ || num_gt _ _)%bool eqn:Hrange; [discriminate |].
  destruct (negb (existsb _ _)) eqn:Hmovie; [discriminate |].
  destruct (list_find _ _) eqn:Hfind; [discriminate |].
  intros [= <- <- <-]. exists m, u, n, r, t.
  apply Bool.negb_false_iff in Hmovie. repeat split; auto.
Qed.



(** ** Invariants of the histories *)








(** ** Details and review listing of a movie *)


Lemma find_existsb {A} (f : A -> bool) (l : list A) :
  existsb f l = true -> exists x, List.find f l = Some x.
Proof.
  induction l as [| y l IH]; cbn; [discriminate |].
  destruct (f y); [eauto | exact IH].
Qed.


(** X14: after a review is created, the details of its movie show one
    review more, the new one after the earlier ones, with the average
    taken over the earlier ratings and the new one; the details of every
    other movie are what they were. *)
Theorem created_review_shows_in_details st req now1 now2 code new st' :
  post_review st req now1 now2 = (Sent code new, st') ->
  (exists before,
     get_movie st (Review.movieId new) = (Sent 200 before, st) /\
     get_movie st' (Review.movieId new) =
       (Sent 200
          (mkStats (movie before) (movieReviews before ++ [new])
                   (reviewCount before + 1)
                   (average_of (map Review.rating (movieReviews before)
                                  ++ [Review.rating new]))),
        st')) /\
  forall other,
    other <> Review.movieId new ->
    (get_movie st' other).1 = (get_movie st other).1.
Proof.
  intros Hpost.
  apply post_review_sent_inv in Hpost
    as (m & u & n & r & t & _ & _ & _ & Hmovie & _ & _ & Hnew & ->).
  assert (Hm : Review.movieId new = m) by now rewrite Hnew.
  rewrite Hm. unfold get_movie. cbn [movies reviews]. split.
  - apply find_existsb in Hmovie as [mv Hmv]. rewrite Hmv.
    eexists. split; [reflexivity |].
    rewrite List.filter_app. cbn [List.filter]. rewrite Hm, Z.eqb_refl.
    rewrite length_app, map_app. cbn [length map movie movieReviews reviewCount].
    rewrite Nat2Z.inj_add. reflexivity.
  - intros other Hother. destruct (List.find _ _); [| reflexivity].
    rewrite List.filter_app. cbn [List.filter]. rewrite Hm.
    destruct (Z.eqb_spec m other) as [-> | _]; [congruence |].
    now rewrite app_nil_r.
Qed.

Lemma created_review_shows_in_details_witness :
  let req := mkRequest None (mkCreate (Some 2) (Some "u1") (Some "U") (Some (4 # 1))
                                      (Some "Fine")) in
  let new := Review.mk 4 2 "u1" "U" 4 "Fine" 10 10 in
  let st' := mkState initial_movies (initial_reviews ++ [new]) in
  post_review initial_state req 10 10 = (Sent 201 new, st') /\
  (exists before,
     get_movie initial_state 2 = (Sent 200 before, initial_state) /\
     get_movie st' 2 =
       (Sent 200
          (mkStats (movie before) (movieReviews before ++ [new])
                   (reviewCount before + 1)
                   (average_of (map Review.rating (movieReviews before) ++ [4]))),
        st')) /\
  forall other, other <> 2 -> (get_movie st' other).1 = (get_movie initial_state other).1.
Proof.
  intros req new st'.
  assert (Hpost : post_review initial_state req 10 10 = (Sent 201 new, st'))
    by (vm_compute; reflexivity).
  split; [exact Hpost |].
  exact (created_review_shows_in_details initial_state req 10 10 201 new st' Hpost).
Defined.

(** ** Timestamps *)

Lemma timestamps_ordered_later t t' rs :
  t <= t' -> timestamps_ordered t rs -> timestamps_ordered t' rs.
Proof.
  intros Hle Hord. unfold timestamps_ordered in *.
  eapply Forall_impl; [exact Hord |]. intros r [H1 H2]. cbn in *. lia.
Qed.

Lemma step_keeps_timestamps_ordered t st op :
  StronglySorted Z.le (t :: readings op) ->
  timestamps_ordered t (reviews st) ->
  timestamps_ordered (List.last (readings op) t) (reviews (step st op)).
Proof.
  intros Hclock Hord. destruct op as [req n1 n2 | rid req now | rid req]; cbn.
  - apply StronglySorted_inv in Hclock as [H12 Ht].
    apply StronglySorted_inv in H12 as [_ H12].
    apply Forall_cons in Ht as [Ht1 Ht]. apply Forall_inv in Ht. apply Forall_inv in H12.
    destruct (post_review st req n1 n2) as [[code new | f] st'] eqn:Hpost.
    + apply post_review_sent_inv in Hpost
        as (m & u & n & r & tx & _ & _ & _ & _ & _ & _ & Hnew & ->).
      cbn. apply Forall_app. split.
      * eapply timestamps_ordered_later; [| exact Hord]. lia.
      * apply Forall_singleton. rewrite Hnew. cbn. lia.
    + pose proof (post_review_failed_keeps_state st req n1 n2 f) as Hsame.
      rewrite Hpost in Hsame. cbn in Hsame. rewrite Hsame by reflexivity.
      eapply timestamps_ordered_later; [| exact Hord]. lia.
  - apply StronglySorted_inv in Hclock as [_ Ht]. apply Forall_inv in Ht.
    destruct (put_review st rid req now) as [[code new | f] st'] eqn:Hput.
    + apply put_review_sent in Hput as (i & old & [Hfind _] & -> & Hnew).
      apply list_find_Some in Hfind as (Hi & _ & _). cbn.
      unfold timestamps_ordered in *.
      apply Forall_insert.
      * eapply Forall_impl; [exact Hord |]. intros r [H1 H2]. cbn in *. lia.
      * rewrite Forall_forall in Hord.
        destruct (Hord old) as [H1 H2]; [eapply list_elem_of_lookup_2; eassumption |].
        pose proof (f_equal Review.createdAt Hnew) as Hc.
        pose proof (f_equal Review.updatedAt Hnew) as Hu. cbn in Hc, Hu. lia.
    + apply put_review_failed_keeps_state in Hput. subst.
      eapply timestamps_ordered_later; [| exact Hord]. lia.
  - destruct (delete_review_state st rid req) as [-> | [i ->]]; [exact Hord |].
    cbn. unfold timestamps_ordered in *.
    apply Forall_forall. intros r Hr.
    rewrite Forall_forall in Hord. apply Hord.
    eapply elem_of_sublist; [exact Hr | apply sublist_delete].
Qed.

(** X15: when the clock never goes back, every stored review was last
    updated no earlier than it was created: the property holds after
    every history of create, update and delete requests whose clock
    readings are in non-decreasing order, from a store in which it holds. *)
Theorem histories_keep_timestamps_ordered t st ops :
  clock_monotone t ops ->
  timestamps_ordered t (reviews st) ->
  Forall (fun r => Review.createdAt r <= Review.updatedAt r) (reviews (run st ops)).
Proof.
  intros Hclock Hord.
  enough (exists t', timestamps_ordered t' (reviews (run st ops))) as [t' Ht'].
  { eapply Forall_impl; [exact Ht' |]. intros r [H1 _]. exact H1. }
  unfold run, clock_monotone in *. revert t st Hclock Hord.
  induction ops as [| op ops IH]; intros t st Hclock Hord; cbn.
  - now exists t.
  - cbn [map concat] in Hclock.
    apply (IH (List.last (readings op) t) (step st op)).
    + destruct op as [req n1 n2 | rid req now | rid req]; cbn in *.
      * apply StronglySorted_inv in Hclock as [Hrest _].
        apply StronglySorted_inv in Hrest as [Hrest _]. exact Hrest.
      * apply StronglySorted_inv in Hclock as [Hrest _]. exact Hrest.
      * exact Hclock.
    + apply step_keeps_timestamps_ordered; [| exact Hord].
      destruct op as [req n1 n2 | rid req now | rid req]; cbn in *.
      * apply StronglySorted_inv in Hclock as [Hrest Ht].
        apply StronglySorted_inv in Hrest as [Hrest H1].
        apply Forall_cons in Ht as [Ht1 Ht]. apply Forall_cons in Ht as [Ht2 _].
        apply Forall_cons in H1 as [H12 _].
        repeat constructor; assumption.
      * apply StronglySorted_inv in Hclock as [_ Ht].
        apply Forall_cons in Ht as [Ht1 _].
        repeat constructor; assumption.
      * repeat constructor.
Qed.

Lemma histories_keep_timestamps_ordered_witness :
  let ops :=
    [ Create (mkRequest None (mkCreate (Some 3) (Some "u1") (Some "U")
                                       (Some (4 # 1)) (Some "Fine")))
             1706745600001 1706745600002;
      Update 1 (mkRequest None (mkUpdate (Some (3 # 1)) None (Some "user123")))
             1706745600005;
      Delete 2 (mkRequest None (mkUpdate None None (Some "user456"))) ] in
  Forall (fun r => Review.createdAt r <= Review.updatedAt r)
         (reviews (run initial_state ops)).
Proof.
  intros ops.
  apply (histories_keep_timestamps_ordered 1706745600000 initial_state ops).
  - unfold clock_monotone. cbn. repeat constructor; lia.
  - unfold timestamps_ordered. cbn. repeat constructor; cbn; lia.
Defined.

(** ** The token check of the router *)

Lemma substring_all (s : string) : substring 0 (String.length s) s = s.
Proof. induction s as [| a s IH]; cbn; [reflexivity | now rewrite IH]. Qed.

(** X16: the three write handlers of the router answer 401 exactly when
    the request carries no verified token, whatever the body and the
    store hold; the body is examined only after the token. *)
Theorem unverified_writes_answer_401 verifyIdToken db :
  (forall req newId now now1 now2,
     (exists f, (Firestore.post_review verifyIdToken db req newId now now1 now2).1 = Failed f
                /\ status f = 401)
     <-> exists f, Firestore.verifyToken verifyIdToken req = inl f) /\
  (forall reviewId req now,
     (exists f, (Firestore.put_review verifyIdToken db reviewId req now).1 = Failed f
                /\ status f = 401)
     <-> exists f, Firestore.verifyToken verifyIdToken req = inl f) /\
  (forall reviewId req,
     (exists f, (Firestore.delete_review verifyIdToken db reviewId req).1 = Failed f
                /\ status f = 401)
     <-> exists f, Firestore.verifyToken verifyIdToken req = inl f).
Proof.
  assert (Hstatus : forall B (req : Firestore.request B) f,
             Firestore.verifyToken verifyIdToken req = inl f -> status f = 401).
  { intros B req f. unfold Firestore.verifyToken.
    repeat case_match; intros [= <-]; reflexivity. }
  repeat split.
  - intros (f & Hf & H401). unfold Firestore.post_review in Hf.
    destruct (Firestore.verifyToken verifyIdToken req) as [f' | uid]; [eauto |].
    exfalso. repeat case_match; cbn in Hf; try discriminate;
      injection Hf as <-; discriminate.
  - intros [f Hf]. exists f. unfold Firestore.post_review. rewrite Hf.
    split; [reflexivity | eauto].
  - intros (f & Hf & H401). unfold Firestore.put_review in Hf.
    destruct (Firestore.verifyToken verifyIdToken req) as [f' | uid]; [eauto |].
    exfalso. repeat case_match; cbn in Hf; try discriminate;
      injection Hf as <-; discriminate.
  - intros [f Hf]. exists f. unfold Firestore.put_review. rewrite Hf.
    split; [reflexivity | eauto].
  - intros (f & Hf & H401). unfold Firestore.delete_review in Hf.
    destruct (Firestore.verifyToken verifyIdToken req) as [f' | uid]; [eauto |].
    exfalso. repeat case_match; cbn in Hf; try discriminate;
      injection Hf as <-; discriminate.
  - intros [f Hf]. exists f. unfold Firestore.delete_review. rewrite Hf.
    split; [reflexivity | eauto].
Qed.

(** X17: a header that does not contain 'Bearer ' (with this
    capitalisation and the space) is answered 'No token provided'; of a
    header 'Bearer ' followed by a text without a further 'Bearer ', the
    text is the token: the empty text is answered 'No token provided',
    any other text is handed to the identity service, whose verdict
    decides. *)
Theorem bearer_header_yields_token verifyIdToken {B} (body : B) (t : string) :
  index 0 "Bearer " t = None ->
  Firestore.verifyToken verifyIdToken (Firestore.mkRequest (Some t) body) = inl NoToken /\
  Firestore.bearer_token ("Bearer " ++ t) = Some t /\
  Firestore.verifyToken verifyIdToken (Firestore.mkRequest (Some ("Bearer " ++ t)) body) =
    match t with
    | "" => inl NoToken
    | _ => match verifyIdToken t with
           | Some uid => inr uid
           | None => inl InvalidToken
           end
    end.
Proof.
  intros Hclean.
  assert (Htoken : Firestore.bearer_token ("Bearer " ++ t) = Some t).
  { unfold Firestore.bearer_token.
    assert (index 0 "Bearer " ("Bearer " ++ t) = Some 0%nat) as ->
      by (cbn; destruct t; reflexivity).
    cbn [Nat.add].
    change (String.length ("Bearer " ++ t)) with (7 + String.length t)%nat.
    replace (7 + String.length t - 7)%nat with (String.length t) by lia.
    change (substring 7 (String.length t) ("Bearer " ++ t))
      with (substring 0 (String.length t) t).
    rewrite substring_all, Hclean. reflexivity. }
  split; [| split; [exact Htoken |]].
  - unfold Firestore.verifyToken, Firestore.bearer_token. cbn. now rewrite Hclean.
  - unfold Firestore.verifyToken. cbn [Firestore.authorization]. rewrite Htoken.
    destruct t; reflexivity.
Qed.

Lemma bearer_header_yields_token_witness :
  let verifyIdToken := fun token => if String.eqb token "abc" then Some "u1" else None in
  Firestore.verifyToken verifyIdToken (Firestore.mkRequest (Some "abc") tt) = inl NoToken /\
  Firestore.bearer_token "Bearer abc" = Some "abc" /\
  Firestore.verifyToken verifyIdToken (Firestore.mkRequest (Some "Bearer abc") tt) = inr "u1".
Proof.
  intros verifyIdToken.
  exact (bearer_header_yields_token verifyIdToken tt "abc" eq_refl).
Defined.

(** ** Reading back what the router wrote *)

Lemma fs_post_review_sent verifyIdToken db req newId now now1 now2 code doc db' :
  Firestore.post_review verifyIdToken db req newId now now1 now2 = (Sent code doc, db') ->
  exists uid movieId rating text,
    Firestore.verifyToken verifyIdToken req = inr uid /\
    Firestore.body req = Firestore.mkCreate (Some movieId) (Some rating) (Some text) /\
    ~ has_review db movieId uid /\
    code = 201 /\
    let reviewData (t1 t2 : Z) : Firestore.document :=
      {[ "movieId" := Firestore.VString movieId;
         "userId" := Firestore.VString uid;
         "rating" := Firestore.VNumber rating;
         "text" := Firestore.VString (trim text);
         "createdAt" := Firestore.VTimestamp t1;
         "updatedAt" := Firestore.VTimestamp t2 ]} in
    doc = <["id" := Firestore.VString newId]> (reviewData now1 now2) /\
    db' = <[newId := reviewData now now]> db.
Proof.
  unfold Firestore.post_review.
  destruct (Firestore.verifyToken verifyIdToken req) as [f | uid]; [discriminate |].
  destruct (_ || _)%bool; [discriminate |].
  destruct (Firestore.body req) as [[movieId|] [rating|] [text|]]; try discriminate.
  cbn [Firestore.c_movieId Firestore.c_rating Firestore.c_text].
  destruct (_ || _)%bool; [discriminate |].
  destruct (bool_decide _) eqn:Hempty; [| discriminate].
  apply bool_decide_eq_true_1, where_eq_pair_empty in Hempty.
  intros [= <- <- <-]. exists uid, movieId, rating, text.
  repeat split; auto.
Qed.

Ltac not_listed :=
  repeat (apply not_elem_of_cons; split; [discriminate |]); apply not_elem_of_nil.

Lemma get_review_fields getUser (db : Firestore.collection) reviewId data :
  db !! reviewId = Some data ->
  exists stored,
    Firestore.get_review getUser db reviewId = (Sent 200 stored, db) /\
    same_fields_but ["id"; "userName"; "userPhoto"; "createdAt"; "updatedAt"]
                    stored data /\
    stored !! "createdAt" = Some (Firestore.toDate (data !! "createdAt")) /\
    stored !! "updatedAt" = Some (Firestore.toDate (data !! "updatedAt")).
Proof.
  intros Hdata. unfold Firestore.get_review. rewrite Hdata.
  eexists. split; [reflexivity |]. split; [| split].
  - intros f Hf.
    assert (Hid : f <> "id") by (intros ->; apply Hf; set_solver).
    assert (Hname : f <> "userName") by (intros ->; apply Hf; set_solver).
    assert (Hphoto : f <> "userPhoto") by (intros ->; apply Hf; set_solver).
    assert (Hc : f <> "createdAt") by (intros ->; apply Hf; set_solver).
    assert (Hu : f <> "updatedAt") by (intros ->; apply Hf; set_solver).
    rewrite !lookup_insert_ne by congruence.
    transitivity ((data ∪ {["id" := Firestore.VString reviewId]}) !! f).
    + unfold Firestore.with_user_details.
      destruct (Firestore.user_of _); [| reflexivity].
      destruct (getUser _); [| reflexivity].
      now rewrite !lookup_insert_ne by congruence.
    + destruct (data !! f) eqn:Hdf.
      * now apply lookup_union_Some_l.
      * apply lookup_union_None. split; [exact Hdf |].
        now apply lookup_singleton_ne.
  - rewrite lookup_insert_ne by discriminate. apply lookup_insert_eq.
  - apply lookup_insert_eq.
Qed.

(** X18: a review the router created can be read back under the
    identifier the store gave it: movie, author (the verified identity),
    rating and trimmed text are the ones of the request, and both
    timestamps are the server time of the write, whatever the two clock
    readings the response of the create request carried; the other
    documents of the store are untouched. *)
Theorem fs_created_review_is_stored verifyIdToken getUser db req newId
    now now1 now2 code doc db' :
  Firestore.post_review verifyIdToken db req newId now now1 now2 = (Sent code doc, db') ->
  exists uid movieId rating text stored,
    Firestore.verifyToken verifyIdToken req = inr uid /\
    Firestore.body req = Firestore.mkCreate (Some movieId) (Some rating) (Some text) /\
    doc !! "createdAt" = Some (Firestore.VTimestamp now1) /\
    doc !! "updatedAt" = Some (Firestore.VTimestamp now2) /\
    Firestore.get_review getUser db' newId = (Sent 200 stored, db') /\
    stored !! "movieId" = Some (Firestore.VString movieId) /\
    stored !! "userId" = Some (Firestore.VString uid) /\
    stored !! "rating" = Some (Firestore.VNumber rating) /\
    stored !! "text" = Some (Firestore.VString (trim text)) /\
    stored !! "createdAt" = Some (Firestore.VTimestamp now) /\
    stored !! "updatedAt" = Some (Firestore.VTimestamp now) /\
    forall k, k <> newId -> db' !! k = db !! k.
Proof.
  intros Hpost.
  apply fs_post_review_sent in Hpost
    as (uid & movieId & rating & text & Htok & Hbody & _ & _ & Hdoc & Hdb).
  cbv zeta in Hdoc, Hdb.
  set (data := ({[ "movieId" := Firestore.VString movieId;
                   "userId" := Firestore.VString uid;
                   "rating" := Firestore.VNumber rating;
                   "text" := Firestore.VString (trim text);
                   "createdAt" := Firestore.VTimestamp now;
                   "updatedAt" := Firestore.VTimestamp now ]} : Firestore.document)) in *.
  assert (Hdata : db' !! newId = Some data) by (subst db'; apply lookup_insert_eq).
  destruct (get_review_fields getUser db' newId data Hdata)
    as (stored & Hget & Hsame & Hcreated & Hupdated).
  exists uid, movieId, rating, text, stored.
  split; [exact Htok |]. split; [exact Hbody |].
  split; [subst doc; reflexivity |]. split; [subst doc; reflexivity |].
  split; [exact Hget |].
  split; [rewrite Hsame by not_listed; reflexivity |].
  split; [rewrite Hsame by not_listed; reflexivity |].
  split; [rewrite Hsame by not_listed; reflexivity |].
  split; [rewrite Hsame by not_listed; reflexivity |].
  split; [rewrite Hcreated; reflexivity |].
  split; [rewrite Hupdated; reflexivity |].
  intros k Hk. subst db'. now apply lookup_insert_ne.
Qed.

Lemma fs_created_review_is_stored_witness :
  let verifyIdToken := fun token => if String.eqb token "abc" then Some "u1" else None in
  let getUser := fun _ : string => @None Firestore.user_record in
  let req := Firestore.mkRequest (Some "Bearer abc")
               (Firestore.mkCreate (Some "m1") (Some (4 # 1)) (Some " Fine ")) in
  let data (t1 t2 : Z) : Firestore.document :=
    {[ "movieId" := Firestore.VString "m1";
       "userId" := Firestore.VString "u1";
       "rating" := Firestore.VNumber (4 # 1);
       "text" := Firestore.VString "Fine";
       "createdAt" := Firestore.VTimestamp t1;
       "updatedAt" := Firestore.VTimestamp t2 ]} in
  let doc := <["id" := Firestore.VString "r1"]> (data 6 7) in
  let db' : Firestore.collection := {[ "r1" := data 5 5 ]} in
  Firestore.post_review verifyIdToken ∅ req "r1" 5 6 7 = (Sent 201 doc, db') /\
  exists uid movieId rating text stored,
    Firestore.verifyToken verifyIdToken req = inr uid /\
    Firestore.body req = Firestore.mkCreate (Some movieId) (Some rating) (Some text) /\
    doc !! "createdAt" = Some (Firestore.VTimestamp 6) /\
    doc !! "updatedAt" = Some (Firestore.VTimestamp 7) /\
    Firestore.get_review getUser db' "r1" = (Sent 200 stored, db') /\
    stored !! "movieId" = Some (Firestore.VString movieId) /\
    stored !! "userId" = Some (Firestore.VString uid) /\
    stored !! "rating" = Some (Firestore.VNumber rating) /\
    stored !! "text" = Some (Firestore.VString (trim text)) /\
    stored !! "createdAt" = Some (Firestore.VTimestamp 5) /\
    stored !! "updatedAt" = Some (Firestore.VTimestamp 5) /\
    forall k, k <> "r1" -> db' !! k = (∅ : Firestore.collection) !! k.
Proof.
  intros verifyIdToken getUser req data doc db'.
  assert (Hpost : Firestore.post_review verifyIdToken ∅ req "r1" 5 6 7 = (Sent 201 doc, db')).
  { vm_compute. reflexivity. }
  split; [exact Hpost |].
  exact (fs_created_review_is_stored verifyIdToken getUser ∅ req "r1" 5 6 7 201 doc db' Hpost).
Defined.

Lemma get_review_unchanged_fields getUser (db db' : Firestore.collection)
    reviewId old new (fields : list string) :
  db !! reviewId = Some old -> db' !! reviewId = Some new ->
  same_fields_but fields new old -> "userId" ∉ fields ->
  exists before after,
    Firestore.get_review getUser db reviewId = (Sent 200 before, db) /\
    Firestore.get_review getUser db' reviewId = (Sent 200 after, db') /\
    same_fields_but fields after before.
Proof.
  intros Hold Hnew Hsame Huser. unfold Firestore.get_review. rewrite Hold, Hnew.
  eexists _, _. split; [reflexivity |]. split; [reflexivity |].
  intros f Hf.
  assert (Hunion : forall g, g ∉ fields ->
            (new ∪ {["id" := Firestore.VString reviewId]}) !! g =
            (old ∪ {["id" := Firestore.VString reviewId]}) !! g).
  { intros g Hg. rewrite !lookup_union. now rewrite (Hsame g Hg). }
  assert (Hdetails : Firestore.with_user_details getUser
                       (new ∪ {["id" := Firestore.VString reviewId]}) !! f =
                     Firestore.with_user_details getUser
                       (old ∪ {["id" := Firestore.VString reviewId]}) !! f).
  { unfold Firestore.with_user_details, Firestore.user_of.
    rewrite (Hunion "userId" Huser).
    destruct ((old ∪ _) !! "userId") as [[| | uid |]|]; auto.
    destruct (getUser uid); auto.
    destruct (decide (f = "userPhoto")) as [-> | Hphoto];
      [now rewrite !lookup_insert_eq |].
    rewrite !(lookup_insert_ne _ "userPhoto") by congruence.
    destruct (decide (f = "userName")) as [-> | Hname];
      [now rewrite !lookup_insert_eq |].
    rewrite !(lookup_insert_ne _ "userName") by congruence. auto. }
  destruct (decide (f = "updatedAt")) as [-> | Hu].
  { rewrite !lookup_insert_eq. now rewrite (Hsame "updatedAt" Hf). }
  rewrite !(lookup_insert_ne _ "updatedAt") by congruence.
  destruct (decide (f = "createdAt")) as [-> | Hc].
  { rewrite !lookup_insert_eq. now rewrite (Hsame "createdAt" Hf). }
  rewrite !(lookup_insert_ne _ "createdAt") by congruence.
  exact Hdetails.
Qed.

(** X19: after an update on the document store, reading the review
    shows the rating and the trimmed text of the request and the time of
    the update; every other field of what is read, the author's name and
    photo included, is what was read before the update, and the store
    still holds at most one review per (movie, author) pair if it did. *)
Theorem fs_updated_review_reads_back verifyIdToken getUser db reviewId req
    now code db' :
  Firestore.put_review verifyIdToken db reviewId req now = (Sent code tt, db') ->
  exists rating text before after,
    Firestore.body req = Firestore.mkUpdate (Some rating) (Some text) /\
    Firestore.get_review getUser db reviewId = (Sent 200 before, db) /\
    Firestore.get_review getUser db' reviewId = (Sent 200 after, db') /\
    after !! "rating" = Some (Firestore.VNumber rating) /\
    after !! "text" = Some (Firestore.VString (trim text)) /\
    after !! "updatedAt" = Some (Firestore.VTimestamp now) /\
    same_fields_but ["rating"; "text"; "updatedAt"] after before /\
    (one_per_pair db -> one_per_pair db').
Proof.
  intros Hput.
  apply fs_put_review_sent in Hput
    as (uid & old & rating & text & _ & Hr & Ht & Hold & _ & ->).
  set (new := <["updatedAt" := Firestore.VTimestamp now]>
                (<["text" := Firestore.VString (trim text)]>
                   (<["rating" := Firestore.VNumber rating]> old))).
  assert (Hnew : <[reviewId := new]> db !! reviewId = Some new)
    by apply lookup_insert_eq.
  assert (Hsame : same_fields_but ["rating"; "text"; "updatedAt"] new old).
  { intros f Hf. subst new.
    rewrite !lookup_insert_ne; [reflexivity | | |];
      intros <-; apply Hf; set_solver. }
  destruct (get_review_unchanged_fields getUser db (<[reviewId := new]> db)
              reviewId old new _ Hold Hnew Hsame ltac:(not_listed))
    as (before & after & Hbefore & Hafter & Hread).
  destruct (get_review_fields getUser _ reviewId new Hnew)
    as (after' & Hafter' & Hfields & _ & Hupdated).
  rewrite Hafter in Hafter'. injection Hafter' as <-.
  exists rating, text, before, after.
  split; [destruct (Firestore.body req); cbn in *; congruence |].
  split; [exact Hbefore |]. split; [exact Hafter |].
  split.
  { rewrite Hfields by not_listed. subst new.
    rewrite !lookup_insert_ne by discriminate. apply lookup_insert_eq. }
  split.
  { rewrite Hfields by not_listed. subst new.
    rewrite lookup_insert_ne by discriminate. apply lookup_insert_eq. }
  split; [rewrite Hupdated; subst new; now rewrite lookup_insert_eq |].
  split; [exact Hread |].
  intros Hone m u k1 k2 d1 d2 H1 H2 [Hm1 Hu1] [Hm2 Hu2].
  assert (Hback : forall k d, <[reviewId := new]> db !! k = Some d ->
                    review_of m u d -> exists d0, db !! k = Some d0 /\ review_of m u d0).
  { intros k d Hk [Hm Hu]. destruct (decide (k = reviewId)) as [-> | Hne].
    - rewrite lookup_insert_eq in Hk. injection Hk as <-.
      exists old. split; [exact Hold |].
      split; (rewrite <- Hsame by not_listed; assumption).
    - rewrite lookup_insert_ne in Hk by congruence. exists d. repeat split; assumption. }
  destruct (Hback k1 d1 H1 (conj Hm1 Hu1)) as (e1 & He1 & Hrev1).
  destruct (Hback k2 d2 H2 (conj Hm2 Hu2)) as (e2 & He2 & Hrev2).
  exact (Hone m u k1 k2 e1 e2 He1 He2 Hrev1 Hrev2).
Qed.

Lemma fs_delete_review_sent verifyIdToken db reviewId req code db' :
  Firestore.delete_review verifyIdToken db reviewId req = (Sent code tt, db') ->
  exists uid old,
    Firestore.verifyToken verifyIdToken req = inr uid /\
    db !! reviewId = Some old /\
    old !! "userId" = Some (Firestore.VString uid) /\
    db' = delete reviewId db.
Proof.
  unfold Firestore.delete_review.
  destruct (Firestore.verifyToken verifyIdToken req) as [f | uid]; [discriminate |].
  destruct (db !! reviewId) as [old|]; [| discriminate].
  destruct (bool_decide _) eqn:Hown; [| discriminate].
  apply bool_decide_eq_true_1 in Hown.
  intros [= _ <-]. exists uid, old. repeat split; auto.
Qed.

(** X20: after a delete on the document store the review is gone and
    nothing else is: reading it is answered 404, so is a second delete
    and an update of it by any verified user with a valid body, the
    other documents are the ones stored before, and no (movie, author)
    pair gains a review. *)
Theorem fs_deleted_review_is_gone verifyIdToken getUser db reviewId req code db' :
  Firestore.delete_review verifyIdToken db reviewId req = (Sent code tt, db') ->
  is_Some (db !! reviewId) /\
  db' !! reviewId = None /\
  (forall k, k <> reviewId -> db' !! k = db !! k) /\
  Firestore.get_review getUser db' reviewId = (Failed ReviewNotFound, db') /\
  (forall req' uid,
     Firestore.verifyToken verifyIdToken req' = inr uid ->
     Firestore.delete_review verifyIdToken db' reviewId req'
       = (Failed ReviewNotFound, db')) /\
  (forall req' uid rating text now,
     Firestore.verifyToken verifyIdToken req' = inr uid ->
     Firestore.body req' = Firestore.mkUpdate (Some rating) (Some text) ->
     (1 <= rating)%Q -> (rating <= 5)%Q -> text <> "" ->
     Firestore.put_review verifyIdToken db' reviewId req' now
       = (Failed ReviewNotFound, db')) /\
  (forall m u, has_review db' m u -> has_review db m u) /\
  (one_per_pair db -> one_per_pair db').
Proof.
  intros Hdel.
  apply fs_delete_review_sent in Hdel as (uid & old & _ & Hold & _ & ->).
  assert (Hgone : delete reviewId db !! reviewId = None) by apply lookup_delete_eq.
  split; [eauto |]. split; [exact Hgone |].
  split; [intros k Hk; now apply lookup_delete_ne |].
  split; [unfold Firestore.get_review; now rewrite Hgone |].
  split; [| split; [| split]].
  - intros req' uid' Htok. unfold Firestore.delete_review. now rewrite Htok, Hgone.
  - intros req' uid' rating text now Htok Hbody Hlo Hhi Htext.
    unfold Firestore.put_review. rewrite Htok, Hbody.
    cbn [Firestore.u_rating Firestore.u_text].
    assert (Hr : truthy (Some rating) = true).
    { apply truthy_Q_spec. intros H0. unfold Qeq, Qle in *. cbn in *. lia. }
    assert (Ht : truthy (Some text) = true) by now apply truthy_string_spec.
    rewrite Hr, Ht. cbn [negb orb].
    rewrite in_range_check by assumption. now rewrite Hgone.
  - intros m u (k & d & Hk & Hrev). apply lookup_delete_Some in Hk as [_ Hk].
    now exists k, d.
  - intros Hone m u k1 k2 d1 d2 H1 H2 Hr1 Hr2.
    apply lookup_delete_Some in H1 as [_ H1]. apply lookup_delete_Some in H2 as [_ H2].
    exact (Hone m u k1 k2 d1 d2 H1 H2 Hr1 Hr2).
Qed.

Lemma fs_updated_review_reads_back_witness :
  let verifyIdToken := fun token => if String.eqb token "abc" then Some "u1" else None in
  let getUser := fun _ : string => Some (Firestore.mkUser (Some "U One") None None) in
  let old : Firestore.document :=
    {[ "movieId" := Firestore.VString "m1";
       "userId" := Firestore.VString "u1";
       "rating" := Firestore.VNumber (4 # 1);
       "text" := Firestore.VString "Fine";
       "createdAt" := Firestore.VTimestamp 5;
       "updatedAt" := Firestore.VTimestamp 5 ]} in
  let db : Firestore.collection := {[ "r1" := old ]} in
  let req := Firestore.mkRequest (Some "Bearer abc")
               (Firestore.mkUpdate (Some (2 # 1)) (Some " Dull ")) in
  let db' : Firestore.collection :=
    {[ "r1" := <["updatedAt" := Firestore.VTimestamp 9]>
                 (<["text" := Firestore.VString "Dull"]>
                    (<["rating" := Firestore.VNumber (2 # 1)]> old)) ]} in
  Firestore.put_review verifyIdToken db "r1" req 9 = (Sent 200 tt, db') /\
  exists rating text before after,
    Firestore.body req = Firestore.mkUpdate (Some rating) (Some text) /\
    Firestore.get_review getUser db "r1" = (Sent 200 before, db) /\
    Firestore.get_review getUser db' "r1" = (Sent 200 after, db') /\
    after !! "rating" = Some (Firestore.VNumber rating) /\
    after !! "text" = Some (Firestore.VString (trim text)) /\
    after !! "updatedAt" = Some (Firestore.VTimestamp 9) /\
    same_fields_but ["rating"; "text"; "updatedAt"] after before /\
    (one_per_pair db -> one_per_pair db').
Proof.
  intros verifyIdToken getUser old db req db'.
  assert (Hput : Firestore.put_review verifyIdToken db "r1" req 9 = (Sent 200 tt, db'))
    by (vm_compute; reflexivity).
  split; [exact Hput |].
  exact (fs_updated_review_reads_back verifyIdToken getUser db "r1" req 9 200 db' Hput).
Defined.

Lemma fs_deleted_review_is_gone_witness :
  let verifyIdToken := fun token => if String.eqb token "abc" then Some "u1" else None in
  let getUser := fun _ : string => @None Firestore.user_record in
  let review (m u : string) : Firestore.document :=
    {[ "movieId" := Firestore.VString m;
       "userId" := Firestore.VString u;
       "rating" := Firestore.VNumber (4 # 1);
       "text" := Firestore.VString "Fine";
       "createdAt" := Firestore.VTimestamp 5;
       "updatedAt" := Firestore.VTimestamp 5 ]} in
  let db : Firestore.collection := {[ "r1" := review "m1" "u1"; "r2" := review "m1" "u2" ]} in
  let req := Firestore.mkRequest (Some "Bearer abc") tt in
  let db' : Firestore.collection := {[ "r2" := review "m1" "u2" ]} in
  Firestore.delete_review verifyIdToken db "r1" req = (Sent 200 tt, db') /\
  db' !! "r1" = None /\
  Firestore.get_review getUser db' "r1" = (Failed ReviewNotFound, db') /\
  Firestore.delete_review verifyIdToken db' "r1" req = (Failed ReviewNotFound, db').
Proof.
  intros verifyIdToken getUser review db req db'.
  assert (Hdel : Firestore.delete_review verifyIdToken db "r1" req = (Sent 200 tt, db'))
    by (vm_compute; reflexivity).
  split; [exact Hdel |].
  pose proof (fs_deleted_review_is_gone verifyIdToken getUser db "r1" req 200 db' Hdel)
    as (_ & Hgone & _ & Hget & Hagain & _).
  split; [exact Hgone |]. split; [exact Hget |].
  apply (Hagain req "u1"). reflexivity.
Defined.

(** ** Statistics *)

Lemma count_where_cons (p : Movie.t -> bool) (m : Movie.t) (ms : list Movie.t) :
  count_where p (m :: ms) = (if p m then 1 else 0) + count_where p ms.
Proof. unfold count_where. cbn. destruct (p m); cbn [length]; lia. Qed.

Lemma count_where_nonneg (p : Movie.t -> bool) (ms : list Movie.t) :
  0 <= count_where p ms.
Proof. unfold count_where. lia. Qed.

Lemma fold_count_year (ms : list Movie.t) (acc : gmap Z Z) :
  (forall k n, acc !! k = Some n -> 0 < n) ->
  let result := fold_left (fun acc movie => count_year acc (Movie.year movie)) ms acc in
  (forall k n, result !! k = Some n -> 0 < n) /\
  forall y, default 0 (result !! y) =
            default 0 (acc !! y) + count_where (fun m => Movie.year m =? y) ms.
Proof.
  revert acc. induction ms as [| m ms IH]; intros acc Hpos; cbn zeta.
  - split; [exact Hpos |]. intros y. unfold count_where. cbn. lia.
  - cbn [fold_left].
    assert (Hstep : forall y, default 0 (count_year acc (Movie.year m) !! y) =
                      default 0 (acc !! y) + if Movie.year m =? y then 1 else 0).
    { intros y. unfold count_year. destruct (Z.eqb_spec (Movie.year m) y) as [-> | Hne].
      - rewrite lookup_insert_eq. cbn. destruct (acc !! y) as [n|] eqn:Hy; cbn; [| lia].
        apply Hpos in Hy. unfold truthy, Z_ToBoolean.
        destruct (Z.eqb_spec n 0); cbn; lia.
      - rewrite lookup_insert_ne by congruence. lia. }
    assert (Hpos' : forall k n, count_year acc (Movie.year m) !! k = Some n -> 0 < n).
    { intros k n. unfold count_year.
      destruct (decide (Movie.year m = k)) as [-> | Hne].
      - rewrite lookup_insert_eq. intros [= <-].
        destruct (acc !! k) as [n0|] eqn:Hk; [| lia].
        apply Hpos in Hk. destruct (truthy n0); lia.
      - rewrite lookup_insert_ne by congruence. apply Hpos. }
    destruct (IH _ Hpos') as [Hres Hcount]. split; [exact Hres |].
    intros y. rewrite Hcount, Hstep, count_where_cons. lia.
Qed.

Lemma fold_count_genre (ms : list Movie.t) (acc : gmap string tally) :
  (forall k n, acc !! k = Some (Count n) -> 0 < n /\ inherited k = false) ->
  (forall k, acc !! k = Some Text -> inherited k = true /\ k <> "__proto__") ->
  let result :=
    fold_left (fun acc movie => count_genre acc (Movie.genre movie)) ms acc in
  (forall k n, result !! k = Some (Count n) -> 0 < n /\ inherited k = false) /\
  (forall k, result !! k = Some Text -> inherited k = true /\ k <> "__proto__") /\
  (forall g, inherited g = false ->
     counted (result !! g) =
     counted (acc !! g) + count_where (fun m => String.eqb (Movie.genre m) g) ms) /\
  (forall g, inherited g = true -> g <> "__proto__" ->
     is_Some (acc !! g) \/ 0 < count_where (fun m => String.eqb (Movie.genre m) g) ms ->
     result !! g = Some Text).
Proof.
  revert acc. induction ms as [| m ms IH]; intros acc Hcount Htext; cbn zeta.
  - split; [exact Hcount |]. split; [exact Htext |]. split.
    + intros g _. unfold count_where. cbn. lia.
    + intros g Hg Hproto [[[n |] Hsome] | Hpos].
      * apply Hcount in Hsome as [_ Hno]. congruence.
      * exact Hsome.
      * unfold count_where in Hpos. cbn in Hpos. lia.
  - cbn [fold_left]. set (g0 := Movie.genre m).
    assert (Hcount' : forall k n, count_genre acc g0 !! k = Some (Count n) ->
                        0 < n /\ inherited k = false).
    { intros k n. unfold count_genre.
      destruct (acc !! g0) as [[n0 |]|] eqn:Hg0.
      - destruct (decide (g0 = k)) as [<- | Hne].
        + rewrite lookup_insert_eq. intros [= <-].
          apply Hcount in Hg0 as [Hpos Hno]. split; [| exact Hno].
          destruct (truthy n0); lia.
        + rewrite lookup_insert_ne by congruence. apply Hcount.
      - destruct (decide (g0 = k)) as [<- | Hne].
        + rewrite lookup_insert_eq. discriminate.
        + rewrite lookup_insert_ne by congruence. apply Hcount.
      - destruct (inherited g0) eqn:Hin.
        + destruct (String.eqb g0 "__proto__"); [apply Hcount |].
          destruct (decide (g0 = k)) as [<- | Hne].
          * rewrite lookup_insert_eq. discriminate.
          * rewrite lookup_insert_ne by congruence. apply Hcount.
        + destruct (decide (g0 = k)) as [<- | Hne].
          * rewrite lookup_insert_eq. intros [= <-]. split; [lia | exact Hin].
          * rewrite lookup_insert_ne by congruence. apply Hcount. }
    assert (Htext' : forall k, count_genre acc g0 !! k = Some Text ->
                       inherited k = true /\ k <> "__proto__").
    { intros k. unfold count_genre.
      destruct (acc !! g0) as [[n0 |]|] eqn:Hg0.
      - destruct (decide (g0 = k)) as [<- | Hne].
        + rewrite lookup_insert_eq. discriminate.
        + rewrite lookup_insert_ne by congruence. apply Htext.
      - destruct (decide (g0 = k)) as [<- | Hne].
        + intros _. now apply Htext.
        + rewrite lookup_insert_ne by congruence. apply Htext.
      - destruct (inherited g0) eqn:Hin.
        + destruct (String.eqb_spec g0 "__proto__") as [Heq | Hproto]; [apply Htext |].
          destruct (decide (g0 = k)) as [<- | Hne].
          * intros _. split; assumption.
          * rewrite lookup_insert_ne by congruence. apply Htext.
        + destruct (decide (g0 = k)) as [<- | Hne].
          * rewrite lookup_insert_eq. discriminate.
          * rewrite lookup_insert_ne by congruence. apply Htext. }
    destruct (IH _ Hcount' Htext') as (Hres1 & Hres2 & Hnum & Htxt).
    split; [exact Hres1 |]. split; [exact Hres2 |]. split.
    + intros g Hg. rewrite (Hnum g Hg), count_where_cons. cbv beta. fold g0.
      enough (counted (count_genre acc g0 !! g) =
              counted (acc !! g) + if String.eqb g0 g then 1 else 0) by lia.
      unfold count_genre. destruct (String.eqb_spec g0 g) as [<- | Hne].
      * destruct (acc !! g0) as [[n0 |]|] eqn:Hg0.
        -- rewrite lookup_insert_eq. cbn. apply Hcount in Hg0 as [Hpos _].
           unfold truthy, Z_ToBoolean. destruct (Z.eqb_spec n0 0); cbn; lia.
        -- apply Htext in Hg0 as [Hyes _]. congruence.
        -- rewrite Hg. rewrite lookup_insert_eq. reflexivity.
      * assert (Hsame : forall v, <[g0 := v]> acc !! g = acc !! g)
          by (intros v; now apply lookup_insert_ne).
        destruct (acc !! g0) as [[n0 |]|]; rewrite ?Hsame; try lia.
        destruct (inherited g0); [| rewrite Hsame; lia].
        destruct (String.eqb g0 "__proto__"); rewrite ?Hsame; lia.
    + intros g Hg Hproto Hsome. apply (Htxt g Hg Hproto).
      unfold count_genre. destruct (decide (g0 = g)) as [Heq | Hne].
      * left. subst g. destruct (acc !! g0) as [[n0 |]|] eqn:Hg0.
        -- rewrite lookup_insert_eq. eauto.
        -- rewrite lookup_insert_eq. eauto.
        -- rewrite Hg. destruct (String.eqb_spec g0 "__proto__"); [contradiction |].
           rewrite lookup_insert_eq. eauto.
      * assert (Hsame : forall v, <[g0 := v]> acc !! g = acc !! g)
          by (intros v; now apply lookup_insert_ne).
        destruct Hsome as [Hacc | Hpos].
        -- left. destruct (acc !! g0) as [[n0 |]|]; rewrite ?Hsame; try exact Hacc.
           destruct (inherited g0); [| rewrite Hsame; exact Hacc].
           destruct (String.eqb g0 "__proto__"); rewrite ?Hsame; exact Hacc.
        -- right. rewrite count_where_cons in Hpos. cbv beta in Hpos. fold g0 in Hpos.
           destruct (String.eqb_spec g0 g) as [Heq | _]; [contradiction | lia].
Qed.

(** X21: the statistics count the movies and the reviews and change
    nothing; [yearStats] has a property for exactly the years of the
    catalogue, its value the number of movies of that year; [genreStats]
    has for every genre that is no inherited property name the number of
    movies of that genre, and none for a genre without movies.  For a
    genre named like an inherited property the value is a text and no
    count, and for the genre [__proto__] there is no property at all. *)
Theorem stats_count_movies st :
  exists report,
    get_stats st = (Sent 200 report, st) /\
    totalMovies report = Z.of_nat (length (movies st)) /\
    totalReviews report = Z.of_nat (length (reviews st)) /\
    (forall y n,
       yearStats report !! y = Some n <->
       n = count_where (fun m => Movie.year m =? y) (movies st) /\ 0 < n) /\
    (forall g n,
       inherited g = false ->
       genreStats report !! g = Some (Count n) <->
       n = count_where (fun m => String.eqb (Movie.genre m) g) (movies st) /\ 0 < n) /\
    (forall g,
       inherited g = false -> genreStats report !! g <> Some Text) /\
    (forall g,
       inherited g = true -> g <> "__proto__" ->
       0 < count_where (fun m => String.eqb (Movie.genre m) g) (movies st) ->
       genreStats report !! g = Some Text) /\
    genreStats report !! "__proto__" = None.
Proof.
  eexists. split; [reflexivity |]. cbn [totalMovies totalReviews yearStats genreStats].
  split; [reflexivity |]. split; [reflexivity |].
  destruct (fold_count_year (movies st) ∅) as [Hypos Hyears].
  { intros k n. rewrite lookup_empty. discriminate. }
  destruct (fold_count_genre (movies st) ∅) as (Hgcount & Hgtext & Hgenres & Htexts).
  { intros k n. rewrite lookup_empty. discriminate. }
  { intros k. rewrite lookup_empty. discriminate. }
  cbn zeta in *. split; [| split; [| split; [| split]]].
  - intros y n. specialize (Hyears y). rewrite lookup_empty in Hyears. cbn in Hyears.
    split.
    + intros Hy. rewrite Hy in Hyears. cbn in Hyears. apply Hypos in Hy. lia.
    + intros [-> Hpos].
      destruct (fold_left _ _ _ !! y) as [n|] eqn:Hy; cbn in Hyears; [| lia].
      f_equal. lia.
  - intros g n Hg. specialize (Hgenres g Hg). rewrite lookup_empty in Hgenres.
    cbn in Hgenres. split.
    + intros Hn. rewrite Hn in Hgenres. cbn in Hgenres. apply Hgcount in Hn. lia.
    + intros [-> Hpos].
      destruct (fold_left _ _ _ !! g) as [[n |]|] eqn:Hn; cbn in Hgenres; try lia.
      f_equal. f_equal. lia.
  - intros g Hg Htext. apply Hgtext in Htext as [Hyes _]. congruence.
  - intros g Hg Hproto Hpos. apply (Htexts g Hg Hproto). now right.
  - destruct (fold_left _ _ _ !! "__proto__") as [[n |]|] eqn:Hp; [| | reflexivity].
    + apply Hgcount in Hp as [_ Hno]. discriminate.
    + apply Hgtext in Hp as [_ Hne]. congruence.
Qed.



(** ** The validation middleware *)


